(** * A todo service over two storage backends

    Shallow embedding of the two programs of the repository: the
    PostgreSQL-backed server ([src/main.go], module [Relational]) and the
    JSON-file-backed server ([src/unnamed/part_000], module [FileBacked]).
    Both are a single [router] in front of six handlers.

    Conventions of the embedding:
    - Go's [int] is the 64-bit two's complement integer, carried in [Z] with
      the wrap-around of [+ 1] written out ([wrap]).
    - Go strings are byte sequences: [string].
    - A Go [[]Todo] is a [slice]: the nil slice is kept apart from the empty
      one, because [encoding/json] prints them differently.
    - A handler is a function from the server state and the request to the
      response and the next state.  The request body is carried as the
      outcome of [json.NewDecoder(r.Body).Decode] into a zero [Todo]. *)

From Stdlib Require Import ZArith String Ascii List Lia Permutation.
From stdpp Require Import base numbers list sorting.
Import ListNotations.

Local Open Scope string_scope.
Local Open Scope list_scope.
Local Open Scope Z_scope.

(** ** The record shared by both programs *)

Record Todo := mkTodo { ID : Z; Title : string; Done : bool }.

(** Records in strictly ascending order of id. *)
Definition ascending (l : list Todo) : Prop := StronglySorted Z.lt (map ID l).

(** ** The pieces of the Go runtime and library the handlers use *)

Module Go.

Definition intSize : Z := 64.
Definition MaxInt : Z := 2 ^ (intSize - 1) - 1.
Definition MinInt : Z := - 2 ^ (intSize - 1).

(** Two's complement wrap-around of a mathematical integer into [int]. *)
Definition wrap (z : Z) : Z :=
  (z + 2 ^ (intSize - 1)) mod 2 ^ intSize - 2 ^ (intSize - 1).

(** [strings.HasPrefix]: [len(s) >= len(prefix) && s[:len(prefix)] == prefix]. *)
Definition HasPrefix (s prefix : string) : bool :=
  (String.length prefix <=? String.length s)%nat
  && String.eqb (substring 0 (String.length prefix) s) prefix.

(** [strings.HasSuffix]: [len(s) >= len(suffix) && s[len(s)-len(suffix):] == suffix]. *)
Definition HasSuffix (s suffix : string) : bool :=
  (String.length suffix <=? String.length s)%nat
  && String.eqb
       (substring (String.length s - String.length suffix)
                  (String.length suffix) s)
       suffix.

(** [strings.TrimPrefix]: [s[len(prefix):]] when [s] has the prefix, else [s]. *)
Definition TrimPrefix (s prefix : string) : string :=
  if HasPrefix s prefix
  then substring (String.length prefix)
                 (String.length s - String.length prefix) s
  else s.

(** [strings.TrimSuffix]: [s[:len(s)-len(suffix)]] when [s] has the suffix. *)
Definition TrimSuffix (s suffix : string) : string :=
  if HasSuffix s suffix
  then substring 0 (String.length s - String.length suffix) s
  else s.

(** One decimal digit: [ch -= '0'; if ch > 9 { syntax error }]. *)
Definition digit (ch : ascii) : option Z :=
  let d := Z.of_N (N_of_ascii ch) - 48 in
  if (0 <=? d) && (d <=? 9) then Some d else None.

(** [n = n*10 + int(ch)] over the bytes of the string. *)
Fixpoint digits (s : string) (n : Z) : option Z :=
  match s with
  | EmptyString => Some n
  | String ch s' =>
      match digit ch with
      | Some d => digits s' (n * 10 + d)
      | None => None
      end
  end.

(** [strconv.Atoi]: an optional sign, then at least one decimal digit and
    nothing else; a value outside [int] is a range error.  [None] stands for
    a non-nil [err] (the handlers look at nothing else). *)
Definition Atoi (s : string) : option Z :=
  match s with
  | EmptyString => None
  | String c rest =>
      let neg := Ascii.eqb c "-"%char in
      let s1 := if neg || Ascii.eqb c "+"%char then rest else s in
      match s1 with
      | EmptyString => None
      | _ =>
          match digits s1 0 with
          | None => None
          | Some n =>
              let v := if neg then - n else n in
              if (MinInt <=? v) && (v <=? MaxInt) then Some v else None
          end
      end
  end.

(** A [[]Todo] value: nil, or a slice over some elements. *)
Inductive slice := nil_slice | slice_of (l : list Todo).

(** The elements a [range] loop visits. *)
Definition elems (s : slice) : list Todo :=
  match s with
  | nil_slice => []
  | slice_of l => l
  end.

(** [append(s, t)]: never nil. *)
Definition append (s : slice) (t : Todo) : slice := slice_of (elems s ++ [t]).

End Go.

(** ** net/http as the handlers see it *)

Module Http.

Definition StatusOK : Z := 200.
Definition StatusCreated : Z := 201.
Definition StatusNoContent : Z := 204.
Definition StatusBadRequest : Z := 400.
Definition StatusNotFound : Z := 404.
Definition StatusInternalServerError : Z := 500.

Definition MethodGet := "GET".
Definition MethodPost := "POST".
Definition MethodPut := "PUT".
Definition MethodPatch := "PATCH".
Definition MethodDelete := "DELETE".

(** What [json.NewEncoder(w).Encode] was applied to. *)
Inductive json := JNull | JObject (t : Todo) | JArray (l : list Todo).

(** A nil slice is printed [null], any other slice as an array. *)
Definition Encode (s : Go.slice) : json :=
  match s with
  | Go.nil_slice => JNull
  | Go.slice_of l => JArray l
  end.

(** What was written to the [ResponseWriter]. *)
Inductive content := NoBody | Text (msg : string) | Json (v : json).

Record response := mkResponse { status : Z; body : content }.

(** [Body] is [Some t] when [Decode(&t)] on a zero [t] returns nil and
    leaves [t]; [None] when it returns an error. *)
Record request := mkRequest { Method : string; Path : string; Body : option Todo }.

(** [http.Error(w, msg, code)]. *)
Definition Error (msg : string) (code : Z) : response := mkResponse code (Text msg).

(** [http.NotFound(w, r)]. *)
Definition NotFound : response := Error "404 page not found" StatusNotFound.

(** A handler that only encodes a value answers with the default status. *)
Definition Ok (v : json) : response := mkResponse StatusOK (Json v).

(** The id a [201 Created] answer carries. *)
Definition created_id (a : response) : option Z :=
  if status a =? StatusCreated
  then match body a with
       | Json (JObject t) => Some (ID t)
       | _ => None
       end
  else None.

(** The ids handed out by a run of answers, in order. *)
Definition created_ids (l : list response) : list Z := omap created_id l.

(** The id named by the path of [/todos/{id}], as the handlers extract it. *)
Definition id_of_path (path : string) : option Z :=
  Go.Atoi (Go.TrimPrefix path "/todos/").

(** The id named by the path of [/todos/{id}/done]. *)
Definition id_of_done_path (path : string) : option Z :=
  Go.Atoi (Go.TrimSuffix (Go.TrimPrefix path "/todos/") "/done").

End Http.

(** ** The file-backed server ([src/unnamed/part_000]) *)

Module FileBacked.
Import Go Http.

(** What [os.ReadFile(dbFile)] and [json.Unmarshal] make of [todos.json]:
    no such file, another read error, bytes that do not parse as a list of
    todos, or the JSON text of a slice ([null] for the nil slice). *)
Inductive file := NotExist | ReadError | Malformed | Saved (s : slice).

(** What [os.WriteFile(dbFile, data, 0644)] does: it writes the data; or it
    fails to open the file, which stays as it is; or it opens the file,
    which truncates it, and fails while writing, which leaves bytes that
    are no JSON text. *)
Inductive disk := Writes | OpenFails | WriteFails.

(** The package-level variables [todos] and [nextID], the file named by
    [dbFile], and what [os.WriteFile] on it does. *)
Record server := mkServer {
  todos : slice;
  nextID : Z;
  dbFile : file;
  writable : disk
}.

Definition set_todos (s : server) (ts : slice) : server :=
  mkServer ts (nextID s) (dbFile s) (writable s).

Definition set_nextID (s : server) (n : Z) : server :=
  mkServer (todos s) n (dbFile s) (writable s).

(** [saveTodosToFile]: an error of [os.WriteFile] is logged and the
    variables stay as they are; what is left in the file depends on where
    the write failed ([json.MarshalIndent] of a slice of todos returns no
    error). *)
Definition saveTodosToFile (s : server) : server :=
  match writable s with
  | Writes => mkServer (todos s) (nextID s) (Saved (todos s)) (writable s)
  | OpenFails => s
  | WriteFails => mkServer (todos s) (nextID s) Malformed (writable s)
  end.

(** The loop of [loadTodosFromFile]:
    [if t.ID >= nextID { nextID = t.ID + 1 }]. *)
Definition bump (n : Z) (t : Todo) : Z :=
  if ID t >=? n then wrap (ID t + 1) else n.

(** [loadTodosFromFile]; [None] is [log.Fatalf] (the process exits). *)
Definition loadTodosFromFile (s : server) : option server :=
  match dbFile s with
  | NotExist => Some s
  | ReadError => None
  | Malformed => None
  | Saved ts =>
      Some (mkServer ts (fold_left bump (elems ts) (nextID s))
                     (dbFile s) (writable s))
  end.

(** The variables as declared: [todos = []Todo{}], [nextID = 1]. *)
Definition initial (f : file) (w : disk) : server :=
  mkServer (slice_of []) 1 f w.

(** [main] up to [http.HandleFunc]. *)
Definition main (f : file) (w : disk) : option server :=
  loadTodosFromFile (initial f w).

(** [for i, t := range todos { if t.ID == id { ... return } }]: the first
    index whose record has the id, with that record. *)
Definition lookup_id (id : Z) (l : list Todo) : option (nat * Todo) :=
  list_find (fun t => ID t = id) l.

Definition getTodos (s : server) (r : request) : response * server :=
  (Ok (Encode (todos s)), s).

Definition getTodo (s : server) (r : request) : response * server :=
  let idStr := TrimPrefix (Path r) "/todos/" in
  match Atoi idStr with
  | None => (Error "Invalid ID" StatusBadRequest, s)
  | Some id =>
      match lookup_id id (elems (todos s)) with
      | Some (_, t) => (Ok (JObject t), s)
      | None => (NotFound, s)
      end
  end.

Definition createTodo (s : server) (r : request) : response * server :=
  match Body r with
  | None => (Error "Bad Request" StatusBadRequest, s)
  | Some t0 =>
      let t := mkTodo (nextID s) (Title t0) (Done t0) in
      let s1 := set_nextID s (wrap (nextID s + 1)) in
      let s2 := set_todos s1 (append (todos s1) t) in
      let s3 := saveTodosToFile s2 in
      (mkResponse StatusCreated (Json (JObject t)), s3)
  end.

Definition updateTodo (s : server) (r : request) : response * server :=
  let idStr := TrimPrefix (Path r) "/todos/" in
  match Atoi idStr with
  | None => (Error "Invalid ID" StatusBadRequest, s)
  | Some id =>
      match Body r with
      | None => (Error "Bad Request" StatusBadRequest, s)
      | Some u =>
          match lookup_id id (elems (todos s)) with
          | Some (i, _) =>
              let updated := mkTodo id (Title u) (Done u) in
              let s1 := set_todos s (slice_of (<[i := updated]> (elems (todos s)))) in
              let s2 := saveTodosToFile s1 in
              (Ok (JObject updated), s2)
          | None => (NotFound, s)
          end
      end
  end.

(** [todos[i].Done = true]. *)
Definition set_done (t : Todo) : Todo := mkTodo (ID t) (Title t) true.

Definition markAsDone (s : server) (r : request) : response * server :=
  let idStr := TrimPrefix (Path r) "/todos/" in
  let idStr := TrimSuffix idStr "/done" in
  match Atoi idStr with
  | None => (Error "Invalid ID" StatusBadRequest, s)
  | Some id =>
      match lookup_id id (elems (todos s)) with
      | Some (i, _) =>
          let l := alter set_done i (elems (todos s)) in
          let s1 := set_todos s (slice_of l) in
          let s2 := saveTodosToFile s1 in
          (* Encode(todos[i]); i is in range, so the index never panics *)
          match l !! i with
          | Some ti => (Ok (JObject ti), s2)
          | None => (NotFound, s2)
          end
      | None => (NotFound, s)
      end
  end.

Definition deleteTodo (s : server) (r : request) : response * server :=
  let idStr := TrimPrefix (Path r) "/todos/" in
  match Atoi idStr with
  | None => (Error "Invalid ID" StatusBadRequest, s)
  | Some id =>
      match lookup_id id (elems (todos s)) with
      | Some (i, _) =>
          let l := elems (todos s) in
          let s1 := set_todos s (slice_of (take i l ++ drop (S i) l)) in
          let s2 := saveTodosToFile s1 in
          (mkResponse StatusNoContent NoBody, s2)
      | None => (NotFound, s)
      end
  end.

Definition router (s : server) (r : request) : response * server :=
  if String.eqb (Method r) MethodGet && String.eqb (Path r) "/todos"
  then getTodos s r
  else if String.eqb (Method r) MethodPost && String.eqb (Path r) "/todos"
  then createTodo s r
  else if String.eqb (Method r) MethodGet && HasPrefix (Path r) "/todos/"
  then getTodo s r
  else if String.eqb (Method r) MethodPut && HasPrefix (Path r) "/todos/"
  then updateTodo s r
  else if String.eqb (Method r) MethodDelete && HasPrefix (Path r) "/todos/"
  then deleteTodo s r
  else if String.eqb (Method r) MethodPatch && HasSuffix (Path r) "/done"
  then markAsDone s r
  else (NotFound, s).

(** The counter is above every id of the dataset. *)
Definition counter_above (s : server) : Prop :=
  Forall (fun t => ID t < nextID s) (elems (todos s)).

(** The ids of the dataset, in the order of the slice. *)
Definition ids (s : server) : list Z := map ID (elems (todos s)).

(** A step that hands out no id: the counter stays, and the ids of the
    dataset are a subsequence of the ids before. *)
Definition keeps (s : server) (a : response) (s' : server) : Prop :=
  created_id a = None
  /\ nextID s' = nextID s
  /\ ids s' `sublist_of` ids s.

(** A step that hands out the counter: the new record goes last, and the
    counter moves on by one. *)
Definition creates (s : server) (a : response) (s' : server) : Prop :=
  created_id a = Some (nextID s)
  /\ nextID s' = wrap (nextID s + 1)
  /\ ids s' = ids s ++ [nextID s].

(** The server answering a list of requests one after the other. *)
Fixpoint serve (s : server) (rs : list request) : list response * server :=
  match rs with
  | [] => ([], s)
  | r :: rs' =>
      let (a, s1) := router s r in
      let (l, s2) := serve s1 rs' in
      (a :: l, s2)
  end.

(** The file holds what [saveTodosToFile] writes for the slice in memory. *)
Definition synced (s : server) : Prop := dbFile s = Saved (todos s).

(** What a request may do to the file.  It leaves the whole server as it
    is, or it has called [saveTodosToFile]: then the file holds the slice
    in memory when writes succeed, is as before when the file cannot be
    opened, and holds no JSON text when writing fails after the open. *)
Definition file_step (s s' : server) : Prop :=
  writable s' = writable s
  /\ (s' = s
      \/ match writable s with
         | Writes => synced s'
         | OpenFails => dbFile s' = dbFile s
         | WriteFails => dbFile s' = Malformed
         end).

(** The process is stopped and started again on the file as it stands:
    [main] with the variables as declared. *)
Definition restart (s : server) : option server := main (dbFile s) (writable s).

End FileBacked.

(** ** The PostgreSQL-backed server ([src/main.go]) *)

Module Relational.
Import Go Http.

(** The database behind [db *pgxpool.Pool]: the rows of
    [todos (id SERIAL PRIMARY KEY, title TEXT NOT NULL, done BOOLEAN NOT NULL)]
    in heap order, the last value handed out by the sequence behind [id], and
    the fate of the coming round trips, one for each call of [Query],
    [QueryRow] and [Exec] and one for each row a query delivers ([true]:
    it goes through, [false]: it fails; once the list is used up every
    round trip goes through). *)
Record pool := mkPool {
  rows : list Todo;
  last_value : Z;
  link : list bool
}.

(** No round trip of the coming requests fails. *)
Definition healthy (db : pool) : Prop := link db = [].

(** [id ... PRIMARY KEY]: no two rows share an id. *)
Definition primary_key (db : pool) : Prop := NoDup (map ID (rows db)).

Definition set_rows (db : pool) (l : list Todo) : pool :=
  mkPool l (last_value db) (link db).

(** The largest value of a [SERIAL] column and of its sequence. *)
Definition MaxSerial : Z := 2 ^ 31 - 1.

(** The ids the column [id] of type INTEGER can hold.  The driver encodes
    the Go [int] bound to [$n] as the type of the column; for a value
    outside it the call returns an error and no statement is run. *)
Definition int4 (id : Z) : bool := (- 2 ^ 31 <=? id) && (id <=? 2 ^ 31 - 1).

(** One round trip: does the statement reach the database and its result
    the program? *)
Definition roundtrip (db : pool) : bool * pool :=
  match link db with
  | [] => (true, db)
  | b :: l => (b, mkPool (rows db) (last_value db) l)
  end.

(** The order of [ORDER BY id]. *)
Definition id_le (a b : Todo) : Prop := ID a <= ID b.

#[global] Instance id_le_dec : RelDecision id_le :=
  fun a b => decide (ID a <= ID b).

(** [ORDER BY id]. *)
Definition order_by_id (l : list Todo) : list Todo := merge_sort id_le l.

(** [for rows.Next() { rows.Scan(...) }] over the result of a query: each
    row is one more delivery by the driver; when one fails, [rows.Next()]
    is false as at the end of the result, and the error stays in
    [rows.Err()]. *)
Fixpoint fetch (result : list Todo) (db : pool) : list Todo * pool :=
  match result with
  | [] => ([], db)
  | t :: result' =>
      let (ok, db1) := roundtrip db in
      if ok
      then let (got, db2) := fetch result' db1 in (t :: got, db2)
      else ([], db1)
  end.

(** [db.Query(ctx, "SELECT id, title, done FROM todos ORDER BY id")] and the
    rows that [rows.Next()] then delivers; [None] is a non-nil [err] of
    [db.Query], the query not having been sent. *)
Definition select_all (db : pool) : option (list Todo) * pool :=
  let (ok, db1) := roundtrip db in
  if ok
  then let (got, db2) := fetch (order_by_id (rows db1)) db1 in (Some got, db2)
  else (None, db1).

(** [db.QueryRow(ctx, "SELECT id, title, done FROM todos WHERE id = $1", id)
    .Scan(&t.ID, &t.Title, &t.Done)]; [None] is a non-nil [err], which is
    [pgx.ErrNoRows] when no row has the id. *)
Definition select_by_id (db : pool) (id : Z) : option Todo * pool :=
  let (ok, db1) := roundtrip db in
  if ok then (snd <$> list_find (fun t => ID t = id) (rows db1), db1)
  else (None, db1).

(** [db.QueryRow(ctx, "INSERT INTO todos (title, done) VALUES ($1, $2)
    RETURNING id", title, done).Scan(&t.ID)]: the id is the next value of the
    sequence; the statement fails when the sequence is exhausted, and also
    (the value staying consumed) when a row already has that id. *)
Definition insert_returning_id (db : pool) (title : string) (done : bool)
  : option Z * pool :=
  let (ok, db1) := roundtrip db in
  if negb ok then (None, db1)
  else if MaxSerial <=? last_value db1 then (None, db1)
  else
    let id := last_value db1 + 1 in
    let db2 := mkPool (rows db1) id (link db1) in
    match list_find (fun t => ID t = id) (rows db2) with
    | Some _ => (None, db2)
    | None => (Some id, set_rows db2 (rows db2 ++ [mkTodo id title done]))
    end.

(** [db.Exec(ctx, "UPDATE todos SET title = $1, done = $2 WHERE id = $3",
    title, done, id)]; the boolean is [err == nil]. *)
Definition update_by_id (db : pool) (title : string) (done : bool) (id : Z)
  : bool * pool :=
  let (ok, db1) := roundtrip db in
  if ok && int4 id
  then (true, set_rows db1
                (map (fun t => if decide (ID t = id)
                               then mkTodo (ID t) title done else t)
                     (rows db1)))
  else (false, db1).

(** [db.Exec(ctx, "UPDATE todos SET done = true WHERE id = $1", id)]. *)
Definition set_done_by_id (db : pool) (id : Z) : bool * pool :=
  let (ok, db1) := roundtrip db in
  if ok && int4 id
  then (true, set_rows db1
                (map (fun t => if decide (ID t = id)
                               then mkTodo (ID t) (Title t) true else t)
                     (rows db1)))
  else (false, db1).

(** [db.Exec(ctx, "DELETE FROM todos WHERE id = $1", id)]. *)
Definition delete_by_id (db : pool) (id : Z) : bool * pool :=
  let (ok, db1) := roundtrip db in
  if ok && int4 id
  then (true, set_rows db1 (filter (fun t => ID t <> id) (rows db1)))
  else (false, db1).

Definition getTodos (db : pool) (r : request) : response * pool :=
  match select_all db with
  | (None, db1) =>
      (Error "Failed to fetch todos" StatusInternalServerError, db1)
  | (Some rs, db1) =>
      (* var todos []Todo; for rows.Next() { todos = append(todos, t) };
         Scan of a row of this table into (int, string, bool) returns nil *)
      let todos := fold_left append rs nil_slice in
      (Ok (Encode todos), db1)
  end.

Definition getTodoById (db : pool) (r : request) : response * pool :=
  let idStr := TrimPrefix (Path r) "/todos/" in
  match Atoi idStr with
  | None => (Error "Invalid ID" StatusBadRequest, db)
  | Some id =>
      match select_by_id db id with
      | (None, db1) => (NotFound, db1)
      | (Some t, db1) => (Ok (JObject t), db1)
      end
  end.

Definition createTodo (db : pool) (r : request) : response * pool :=
  match Body r with
  | None => (Error "Bad Request" StatusBadRequest, db)
  | Some t =>
      match insert_returning_id db (Title t) (Done t) with
      | (None, db1) =>
          (Error "Failed to insert" StatusInternalServerError, db1)
      | (Some id, db1) =>
          (mkResponse StatusCreated
                      (Json (JObject (mkTodo id (Title t) (Done t)))), db1)
      end
  end.

Definition updateTodo (db : pool) (r : request) : response * pool :=
  let idStr := TrimPrefix (Path r) "/todos/" in
  match Atoi idStr with
  | None => (Error "Invalid ID" StatusBadRequest, db)
  | Some id =>
      match Body r with
      | None => (Error "Bad Request" StatusBadRequest, db)
      | Some updated =>
          match update_by_id db (Title updated) (Done updated) id with
          | (false, db1) =>
              (Error "Update failed" StatusInternalServerError, db1)
          | (true, db1) =>
              (Ok (JObject (mkTodo id (Title updated) (Done updated))), db1)
          end
      end
  end.

Definition markAsDone (db : pool) (r : request) : response * pool :=
  let idStr := TrimPrefix (Path r) "/todos/" in
  let idStr := TrimSuffix idStr "/done" in
  match Atoi idStr with
  | None => (Error "Invalid ID" StatusBadRequest, db)
  | Some id =>
      match set_done_by_id db id with
      | (false, db1) =>
          (Error "Failed to mark done" StatusInternalServerError, db1)
      | (true, db1) =>
          match select_by_id db1 id with
          | (None, db2) => (NotFound, db2)
          | (Some t, db2) => (Ok (JObject t), db2)
          end
      end
  end.

Definition deleteTodo (db : pool) (r : request) : response * pool :=
  let idStr := TrimPrefix (Path r) "/todos/" in
  match Atoi idStr with
  | None => (Error "Invalid ID" StatusBadRequest, db)
  | Some id =>
      match delete_by_id db id with
      | (false, db1) =>
          (Error "Delete failed" StatusInternalServerError, db1)
      | (true, db1) => (mkResponse StatusNoContent NoBody, db1)
      end
  end.

Definition router (db : pool) (r : request) : response * pool :=
  if String.eqb (Method r) MethodGet && String.eqb (Path r) "/todos"
  then getTodos db r
  else if String.eqb (Method r) MethodPost && String.eqb (Path r) "/todos"
  then createTodo db r
  else if String.eqb (Method r) MethodGet && HasPrefix (Path r) "/todos/"
  then getTodoById db r
  else if String.eqb (Method r) MethodPut && HasPrefix (Path r) "/todos/"
  then updateTodo db r
  else if String.eqb (Method r) MethodDelete && HasPrefix (Path r) "/todos/"
  then deleteTodo db r
  else if String.eqb (Method r) MethodPatch && HasSuffix (Path r) "/done"
  then markAsDone db r
  else (NotFound, db).

(** A step that creates no row: the sequence does not go back, and the
    ids of the table are a subsequence of the ids before. *)
Definition keeps (db : pool) (a : response) (db' : pool) : Prop :=
  created_id a = None
  /\ last_value db <= last_value db'
  /\ map ID (rows db') `sublist_of` map ID (rows db).

(** A step that creates a row: its id is the next value of the sequence,
    no row had it, and the row goes last. *)
Definition creates (db : pool) (a : response) (db' : pool) : Prop :=
  created_id a = Some (last_value db + 1)
  /\ last_value db' = last_value db + 1
  /\ Forall (fun t => ID t <> last_value db + 1) (rows db)
  /\ map ID (rows db') = map ID (rows db) ++ [last_value db + 1].

(** Every id of the table has been handed out by the sequence. *)
Definition sequence_above (db : pool) : Prop :=
  Forall (fun t => ID t <= last_value db) (rows db).

(** The server answering a list of requests one after the other. *)
Fixpoint serve (db : pool) (rs : list request) : list response * pool :=
  match rs with
  | [] => ([], db)
  | r :: rs' =>
      let (a, db1) := router db r in
      let (l, db2) := serve db1 rs' in
      (a :: l, db2)
  end.

End Relational.


(** ** encoding/json as [Decode(&t)] reads a request body *)

Module Json.

(** A JSON value, told apart as far as decoding into a [Todo] does:
    [Number n] is a number written as the integer [n], and [Other] is any
    other number (with a fraction or an exponent), an array or an
    object. *)
Inductive value :=
  Null | Bool (b : bool) | Number (n : Z) | Text (s : string) | Other.

(** The bytes of a request body: no JSON value at their start (as for an
    empty body), a value that is no object, or an object with its members
    in the order they are written. *)
Inductive body :=
  Invalid | Plain (v : value) | Object (members : list (string * value)).

(** Keys match the field names without regard to the case of letters. *)
Definition lower (c : ascii) : ascii :=
  let n := N_of_ascii c in
  if ((65 <=? n) && (n <=? 90))%N then ascii_of_N (n + 32) else c.

Fixpoint fold (s : string) : string :=
  match s with
  | EmptyString => EmptyString
  | String c s' => String (lower c) (fold s')
  end.

(** One member of the object: [null] leaves the field as it is, a value of
    the type of the field is stored, a value of another type is an
    [UnmarshalTypeError], and a key that names no field is skipped.  [None]
    is the error, which [Decode] returns whatever the members after it
    hold. *)
Definition assign (t : Todo) (key : string) (v : value) : option Todo :=
  let k := fold key in
  if String.eqb k "id" then
    match v with
    | Null => Some t
    | Number n =>
        if (Go.MinInt <=? n) && (n <=? Go.MaxInt)
        then Some (mkTodo n (Title t) (Done t)) else None
    | _ => None
    end
  else if String.eqb k "title" then
    match v with
    | Null => Some t
    | Text s => Some (mkTodo (ID t) s (Done t))
    | _ => None
    end
  else if String.eqb k "done" then
    match v with
    | Null => Some t
    | Bool b => Some (mkTodo (ID t) (Title t) b)
    | _ => None
    end
  else Some t.

Fixpoint assign_all (members : list (string * value)) (t : Todo) : option Todo :=
  match members with
  | [] => Some t
  | (key, v) :: members' =>
      match assign t key v with
      | Some t' => assign_all members' t'
      | None => None
      end
  end.

(** [var t Todo]. *)
Definition zero : Todo := mkTodo 0 "" false.

(** [json.NewDecoder(r.Body).Decode(&t)] on a zero [t]: [Some t] when it
    returns nil, [None] when it returns an error. *)
Definition Decode (b : body) : option Todo :=
  match b with
  | Invalid => None
  | Plain Null => Some zero
  | Plain _ => None
  | Object members => assign_all members zero
  end.

End Json.

(** * Properties *)

(** ** The library pieces *)

Section GoFacts.
Import Go.

Lemma wrap_in_range (z : Z) : MinInt <= z <= MaxInt -> wrap z = z.
Proof.
  unfold wrap, MinInt, MaxInt, intSize. intros Hz.
  rewrite Z.mod_small; lia.
Qed.

Lemma wrap_past_MaxInt : wrap (MaxInt + 1) = MinInt.
Proof. reflexivity. Qed.

Example Atoi_plain : Atoi "42" = Some 42.
Proof. reflexivity. Qed.

Example Atoi_signed : Atoi "-007" = Some (-7) /\ Atoi "+5" = Some 5.
Proof. split; reflexivity. Qed.

Example Atoi_rejects :
  Atoi "" = None /\ Atoi "-" = None /\ Atoi "1/done" = None
  /\ Atoi "/foo" = None /\ Atoi "9223372036854775808" = None.
Proof. repeat split; reflexivity. Qed.

Example Trim_done : TrimSuffix (TrimPrefix "/todos/12/done" "/todos/") "/done" = "12".
Proof. reflexivity. Qed.

Example TrimPrefix_absent : TrimPrefix "/foo/done" "/todos/" = "/foo/done".
Proof. reflexivity. Qed.

End GoFacts.

(** ** The range loops that search an id *)

Section Lookup.

Implicit Types (l : list Todo) (t : Todo) (id : Z).

Lemma lookup_id_None l id :
  Forall (fun t => ID t <> id) l -> FileBacked.lookup_id id l = None.
Proof. intros H. unfold FileBacked.lookup_id. by apply list_find_None. Qed.

Lemma lookup_id_first l1 t l2 :
  Forall (fun x => ID x <> ID t) l1 ->
  FileBacked.lookup_id (ID t) (l1 ++ t :: l2) = Some (length l1, t).
Proof.
  intros H. unfold FileBacked.lookup_id. apply list_find_Some.
  split; [by apply list_lookup_middle|]. split; [done|].
  intros j y Hj Hlt. rewrite lookup_app_l in Hj by done.
  rewrite Forall_lookup in H. by eapply H.
Qed.

Lemma lookup_id_Some l id i t :
  FileBacked.lookup_id id l = Some (i, t) -> l !! i = Some t /\ ID t = id.
Proof.
  unfold FileBacked.lookup_id. intros H%list_find_Some. tauto.
Qed.

(** A statement with [WHERE id = $1] that touches every row but those of
    another id leaves a table without that id as it is. *)
Lemma map_other_ids (f : Todo -> Todo) l id :
  Forall (fun t => ID t <> id) l ->
  map (fun t => if decide (ID t = id) then f t else t) l = l.
Proof.
  induction 1 as [|t l Ht _ IH]; simpl; [done|].
  rewrite IH. by destruct (decide (ID t = id)).
Qed.

Lemma filter_other_ids l id :
  Forall (fun t => ID t <> id) l -> filter (fun t => ID t <> id) l = l.
Proof.
  induction 1 as [|t l Ht _ IH]; [done|].
  rewrite filter_cons_True by done. by rewrite IH.
Qed.

End Lookup.

(** ** Deleting an id that has no record *)

(** The file-backed server answers 404 and changes nothing. *)
Lemma file_delete_missing (s : FileBacked.server) (r : Http.request) (id : Z) :
  Http.id_of_path (Http.Path r) = Some id ->
  Forall (fun t => ID t <> id) (Go.elems (FileBacked.todos s)) ->
  FileBacked.deleteTodo s r = (Http.NotFound, s).
Proof.
  unfold Http.id_of_path, FileBacked.deleteTodo. intros -> H.
  by rewrite lookup_id_None.
Qed.

(** C1 (as the code behaves, relational server): for an id that no row of
    the table has, DELETE is answered 204 No Content when the id is one the
    column can hold, and 500 when it is not; the table stays as it is, and
    the answer is never 404. *)
Theorem relational_delete_missing (db : Relational.pool) (r : Http.request) (id : Z) :
  Http.id_of_path (Http.Path r) = Some id ->
  Relational.healthy db ->
  Forall (fun t => ID t <> id) (Relational.rows db) ->
  Relational.deleteTodo db r
  = if Relational.int4 id
    then (Http.mkResponse Http.StatusNoContent Http.NoBody, db)
    else (Http.Error "Delete failed" Http.StatusInternalServerError, db).
Proof.
  unfold Http.id_of_path, Relational.deleteTodo, Relational.healthy.
  intros -> Hl Hno.
  unfold Relational.delete_by_id, Relational.roundtrip. rewrite Hl.
  destruct (Relational.int4 id); [|done]. cbn [andb].
  unfold Relational.set_rows. rewrite filter_other_ids by done.
  by destruct db.
Qed.

Lemma relational_delete_missing_witness :
  Relational.router (Relational.mkPool [] 0 [])
                    (Http.mkRequest "DELETE" "/todos/42" None)
  = (Http.mkResponse 204 Http.NoBody, Relational.mkPool [] 0 []).
Proof.
  exact (relational_delete_missing (Relational.mkPool [] 0 [])
           (Http.mkRequest "DELETE" "/todos/42" None) 42
           eq_refl eq_refl (Forall_nil_2 _)).
Defined.

(** ** Updating *)

(** The file-backed server answers 404 for an id without a record. *)
Lemma file_update_missing (s : FileBacked.server) (r : Http.request) (id : Z) (u : Todo) :
  Http.id_of_path (Http.Path r) = Some id ->
  Http.Body r = Some u ->
  Forall (fun t => ID t <> id) (Go.elems (FileBacked.todos s)) ->
  FileBacked.updateTodo s r = (Http.NotFound, s).
Proof.
  unfold Http.id_of_path, FileBacked.updateTodo. intros -> -> H.
  by rewrite lookup_id_None.
Qed.

(** The file-backed server replaces title and done of the first record of
    the id, in place, and answers with the record under the same id. *)
Lemma file_update_existing (s : FileBacked.server) (r : Http.request) (u t : Todo)
    (l1 l2 : list Todo) :
  Http.id_of_path (Http.Path r) = Some (ID t) ->
  Http.Body r = Some u ->
  Go.elems (FileBacked.todos s) = l1 ++ t :: l2 ->
  Forall (fun x => ID x <> ID t) l1 ->
  let updated := mkTodo (ID t) (Title u) (Done u) in
  FileBacked.updateTodo s r
  = (Http.Ok (Http.JObject updated),
     FileBacked.saveTodosToFile
       (FileBacked.set_todos s (Go.slice_of (l1 ++ updated :: l2)))).
Proof.
  unfold Http.id_of_path, FileBacked.updateTodo. intros -> -> Hl H1.
  rewrite Hl, lookup_id_first by done. simpl.
  by rewrite insert_app_r_alt, Nat.sub_diag by lia.
Qed.

(** The relational server does the same for an id that has a row. *)
Lemma relational_update_existing (db : Relational.pool) (r : Http.request)
    (u t : Todo) (l1 l2 : list Todo) :
  Http.id_of_path (Http.Path r) = Some (ID t) ->
  Http.Body r = Some u ->
  Relational.healthy db ->
  Relational.rows db = l1 ++ t :: l2 ->
  Forall (fun x => ID x <> ID t) (l1 ++ l2) ->
  let updated := mkTodo (ID t) (Title u) (Done u) in
  Relational.updateTodo db r
  = if Relational.int4 (ID t)
    then (Http.Ok (Http.JObject updated),
          Relational.set_rows db (l1 ++ updated :: l2))
    else (Http.Error "Update failed" Http.StatusInternalServerError, db).
Proof.
  unfold Http.id_of_path, Relational.updateTodo, Relational.healthy.
  intros -> -> Hl Hrows [H1 H2]%Forall_app. simpl.
  unfold Relational.update_by_id, Relational.roundtrip. rewrite Hl.
  destruct (Relational.int4 (ID t)); [|done]. cbn [andb]. rewrite Hrows.
  rewrite map_app. simpl. rewrite decide_True by done.
  rewrite !(map_other_ids (fun x => mkTodo (ID x) (Title u) (Done u))) by done.
  done.
Qed.

(** C2 (as the code behaves, relational server): for an id that no row of
    the table has, PUT is answered 200 with the request's title and done
    under that id when the id is one the column can hold, and 500 when it
    is not; the table stays as it is, and the answer is never 404. *)
Theorem relational_update_missing (db : Relational.pool) (r : Http.request)
    (id : Z) (u : Todo) :
  Http.id_of_path (Http.Path r) = Some id ->
  Http.Body r = Some u ->
  Relational.healthy db ->
  Forall (fun t => ID t <> id) (Relational.rows db) ->
  Relational.updateTodo db r
  = if Relational.int4 id
    then (Http.Ok (Http.JObject (mkTodo id (Title u) (Done u))), db)
    else (Http.Error "Update failed" Http.StatusInternalServerError, db).
Proof.
  unfold Http.id_of_path, Relational.updateTodo, Relational.healthy.
  intros -> -> Hl Hno.
  unfold Relational.update_by_id, Relational.roundtrip. rewrite Hl.
  destruct (Relational.int4 id); [|done]. cbn [andb].
  unfold Relational.set_rows.
  rewrite (map_other_ids (fun x => mkTodo (ID x) (Title u) (Done u))) by done.
  by destruct db.
Qed.

Lemma relational_update_missing_witness :
  Relational.router (Relational.mkPool [] 0 [])
    (Http.mkRequest "PUT" "/todos/42" (Some (mkTodo 0 "ghost" true)))
  = (Http.mkResponse 200 (Http.Json (Http.JObject (mkTodo 42 "ghost" true))),
     Relational.mkPool [] 0 []).
Proof.
  exact (relational_update_missing (Relational.mkPool [] 0 [])
           (Http.mkRequest "PUT" "/todos/42" (Some (mkTodo 0 "ghost" true)))
           42 (mkTodo 0 "ghost" true) eq_refl eq_refl eq_refl (Forall_nil_2 _)).
Defined.

(** ** The dispatch of the router *)

(** A path segment that [Atoi] rejects is answered 400 by every handler
    that takes an id, before anything else is looked at. *)
Lemma file_bad_id (s : FileBacked.server) (r : Http.request) :
  let bad := (Http.Error "Invalid ID" Http.StatusBadRequest, s) in
  (Http.id_of_path (Http.Path r) = None ->
   FileBacked.getTodo s r = bad /\ FileBacked.updateTodo s r = bad
   /\ FileBacked.deleteTodo s r = bad)
  /\ (Http.id_of_done_path (Http.Path r) = None ->
      FileBacked.markAsDone s r = bad).
Proof.
  unfold Http.id_of_path, Http.id_of_done_path, FileBacked.getTodo,
    FileBacked.updateTodo, FileBacked.deleteTodo, FileBacked.markAsDone.
  split; intros ->; auto.
Qed.

Lemma relational_bad_id (db : Relational.pool) (r : Http.request) :
  let bad := (Http.Error "Invalid ID" Http.StatusBadRequest, db) in
  (Http.id_of_path (Http.Path r) = None ->
   Relational.getTodoById db r = bad /\ Relational.updateTodo db r = bad
   /\ Relational.deleteTodo db r = bad)
  /\ (Http.id_of_done_path (Http.Path r) = None ->
      Relational.markAsDone db r = bad).
Proof.
  unfold Http.id_of_path, Http.id_of_done_path, Relational.getTodoById,
    Relational.updateTodo, Relational.deleteTodo, Relational.markAsDone.
  split; intros ->; auto.
Qed.

(** Every PATCH whose path ends in [/done] is handed to [markAsDone],
    whatever the path starts with. *)
Lemma patch_reaches_markAsDone (p : string) (b : option Todo) :
  Go.HasSuffix p "/done" = true ->
  (forall s, FileBacked.router s (Http.mkRequest "PATCH" p b)
             = FileBacked.markAsDone s (Http.mkRequest "PATCH" p b))
  /\ (forall db, Relational.router db (Http.mkRequest "PATCH" p b)
                 = Relational.markAsDone db (Http.mkRequest "PATCH" p b)).
Proof.
  intros H. split; intros x.
  - unfold FileBacked.router. simpl. by rewrite H.
  - unfold Relational.router. simpl. by rewrite H.
Qed.

(** A request of a method outside GET, POST, PUT, DELETE and PATCH falls
    through to 404. *)
Lemma other_method_not_found (m p : string) (b : option Todo) :
  m <> "GET" -> m <> "POST" -> m <> "PUT" -> m <> "DELETE" -> m <> "PATCH" ->
  (forall s, FileBacked.router s (Http.mkRequest m p b) = (Http.NotFound, s))
  /\ (forall db, Relational.router db (Http.mkRequest m p b) = (Http.NotFound, db)).
Proof.
  intros H1 H2 H3 H4 H5.
  apply String.eqb_neq in H1, H2, H3, H4, H5.
  split; intros x.
  - unfold FileBacked.router, Http.MethodGet, Http.MethodPost, Http.MethodPut,
      Http.MethodDelete, Http.MethodPatch. simpl.
    by rewrite H1, H2, H3, H4, H5.
  - unfold Relational.router, Http.MethodGet, Http.MethodPost, Http.MethodPut,
      Http.MethodDelete, Http.MethodPatch. simpl.
    by rewrite H1, H2, H3, H4, H5.
Qed.

(** C4 (as the code behaves): PATCH [/foo/done] is not a row of the dispatch
    table, yet both routers hand it to [markAsDone], whose answer is
    400 Invalid ID and not 404. *)
Theorem patch_done_outside_todos :
  (forall (s : FileBacked.server) (b : option Todo),
      FileBacked.router s (Http.mkRequest "PATCH" "/foo/done" b)
      = (Http.mkResponse 400 (Http.Text "Invalid ID"), s))
  /\ (forall (db : Relational.pool) (b : option Todo),
         Relational.router db (Http.mkRequest "PATCH" "/foo/done" b)
         = (Http.mkResponse 400 (Http.Text "Invalid ID"), db)).
Proof. split; intros; reflexivity. Qed.

(** ** Listing *)

(** The file-backed server answers 200 with its slice as it stands. *)
Lemma file_list (s : FileBacked.server) (r : Http.request) :
  FileBacked.getTodos s r = (Http.Ok (Http.Encode (FileBacked.todos s)), s).
Proof. reflexivity. Qed.

(** The slice the relational handler builds from the rows it is given. *)
Lemma collect_rows (rs : list Todo) (acc : Go.slice) :
  fold_left Go.append rs acc
  = match rs with
    | [] => acc
    | _ => Go.slice_of (Go.elems acc ++ rs)
    end.
Proof.
  revert acc. induction rs as [|t rs IH]; intros acc; [done|].
  simpl. rewrite IH. destruct rs as [|t' rs]; [done|].
  simpl. by rewrite <- app_assoc.
Qed.

(** C5 (as the code behaves, relational server): on the empty table
    GET /todos is answered 200 with JSON [null], the encoding of the nil
    slice, not with an empty array. *)
Theorem relational_list_empty (db : Relational.pool) (r : Http.request) :
  Relational.healthy db ->
  Relational.rows db = [] ->
  Relational.getTodos db r
  = (Http.mkResponse Http.StatusOK (Http.Json Http.JNull), db).
Proof.
  unfold Relational.healthy, Relational.getTodos, Relational.select_all,
    Relational.roundtrip.
  intros -> ->. reflexivity.
Qed.

Lemma relational_list_empty_witness :
  Relational.router (Relational.mkPool [] 0 [])
                    (Http.mkRequest "GET" "/todos" None)
  = (Http.mkResponse 200 (Http.Json Http.JNull), Relational.mkPool [] 0 []).
Proof.
  exact (relational_list_empty (Relational.mkPool [] 0 [])
           (Http.mkRequest "GET" "/todos" None) eq_refl eq_refl).
Defined.

(** ** Where the id of a created record comes from *)

(** The id an INSERT returns is the value after the last one of the
    sequence. *)
Lemma insert_returning_id_next (db : Relational.pool) (title : string) (done : bool) :
  fst (Relational.insert_returning_id db title done) = None
  \/ fst (Relational.insert_returning_id db title done)
     = Some (Relational.last_value db + 1).
Proof.
  unfold Relational.insert_returning_id, Relational.roundtrip.
  destruct (Relational.link db) as [|[] l]; simpl; auto;
    destruct (Relational.MaxSerial <=? Relational.last_value db); simpl; auto;
    destruct (list_find _ _); simpl; auto.
Qed.

Example Decode_members :
  Json.Decode (Json.Object [("title", Json.Text "buy milk"); ("done", Json.Bool true)])
  = Some (mkTodo 0 "buy milk" true)
  /\ Json.Decode (Json.Object [("ID", Json.Number 7); ("Title", Json.Text "x");
                               ("extra", Json.Other); ("done", Json.Null)])
     = Some (mkTodo 7 "x" false)
  /\ Json.Decode (Json.Plain Json.Null) = Some (mkTodo 0 "" false).
Proof. repeat split; reflexivity. Qed.

Example Decode_errors :
  Json.Decode Json.Invalid = None
  /\ Json.Decode (Json.Plain (Json.Text "x")) = None
  /\ Json.Decode (Json.Object [("title", Json.Number 1)]) = None
  /\ Json.Decode (Json.Object [("id", Json.Other)]) = None
  /\ Json.Decode (Json.Object [("id", Json.Number 9223372036854775808)]) = None.
Proof. repeat split; reflexivity. Qed.

(** An id member written last decides the id that is decoded and nothing
    else. *)
Lemma assign_all_app (ms1 ms2 : list (string * Json.value)) (t : Todo) :
  Json.assign_all (ms1 ++ ms2) t
  = match Json.assign_all ms1 t with
    | Some t' => Json.assign_all ms2 t'
    | None => None
    end.
Proof.
  revert t. induction ms1 as [|[k v] ms1 IH]; intros t; simpl; [done|].
  destruct (Json.assign t k v); [apply IH|done].
Qed.

Lemma Decode_id_member (ms : list (string * Json.value)) (t : Todo) (i : Z) :
  Go.MinInt <= i <= Go.MaxInt ->
  Json.Decode (Json.Object ms) = Some t ->
  Json.Decode (Json.Object (ms ++ [("id", Json.Number i)]))
  = Some (mkTodo i (Title t) (Done t)).
Proof.
  intros Hi Hd. simpl in *. rewrite assign_all_app, Hd. simpl.
  unfold Json.assign. simpl.
  destruct (Z.leb_spec Go.MinInt i); [|lia].
  by destruct (Z.leb_spec i Go.MaxInt); [|lia].
Qed.




(** ** Saving touches the file only *)

Lemma todos_saveTodosToFile (s : FileBacked.server) :
  FileBacked.todos (FileBacked.saveTodosToFile s) = FileBacked.todos s.
Proof. unfold FileBacked.saveTodosToFile. by destruct (FileBacked.writable s). Qed.

Lemma nextID_saveTodosToFile (s : FileBacked.server) :
  FileBacked.nextID (FileBacked.saveTodosToFile s) = FileBacked.nextID s.
Proof. unfold FileBacked.saveTodosToFile. by destruct (FileBacked.writable s). Qed.

(** ** The listing of the file-backed server is an array *)

(** A fresh file-backed server lists the empty array. *)
Lemma file_list_empty (f : FileBacked.file) (w : FileBacked.disk) :
  FileBacked.router (FileBacked.initial f w) (Http.mkRequest "GET" "/todos" None)
  = (Http.Ok (Http.JArray []), FileBacked.initial f w).
Proof. reflexivity. Qed.

(** No request makes the slice of the file-backed server nil. *)
Lemma file_router_not_nil (s : FileBacked.server) (r : Http.request) :
  FileBacked.todos s <> Go.nil_slice ->
  FileBacked.todos (snd (FileBacked.router s r)) <> Go.nil_slice.
Proof.
  intros Hs.
  unfold FileBacked.router, FileBacked.getTodos, FileBacked.getTodo,
    FileBacked.createTodo, FileBacked.updateTodo, FileBacked.markAsDone,
    FileBacked.deleteTodo.
  repeat case_match; cbn [snd]; rewrite ?todos_saveTodosToFile; done.
Qed.

(** So every listing of a server that did not start on a file holding JSON
    [null] is an array. *)
Lemma file_list_array (s : FileBacked.server) (rs : list Http.request) (r : Http.request) :
  FileBacked.todos s <> Go.nil_slice ->
  exists l : list Todo,
    fst (FileBacked.getTodos (snd (FileBacked.serve s rs)) r)
    = Http.Ok (Http.JArray l).
Proof.
  revert s. induction rs as [|q rs IH]; intros s Hs.
  - simpl. destruct (FileBacked.todos s) as [|l] eqn:E; [done|].
    by exists l.
  - simpl. destruct (FileBacked.router s q) as [a s1] eqn:E1.
    destruct (FileBacked.serve s1 rs) as [out s2] eqn:E2.
    specialize (IH s1). rewrite E2 in IH. apply IH.
    pose proof (file_router_not_nil s q Hs) as H. by rewrite E1 in H.
Qed.

(** ** Round trips over a healthy link *)

Lemma roundtrip_healthy (db : Relational.pool) :
  Relational.healthy db -> Relational.roundtrip db = (true, db).
Proof. unfold Relational.healthy, Relational.roundtrip. by intros ->. Qed.

Lemma fetch_healthy (db : Relational.pool) (l : list Todo) :
  Relational.healthy db -> Relational.fetch l db = (l, db).
Proof.
  intros Hl. induction l as [|t l IH]; [done|].
  simpl. by rewrite roundtrip_healthy, IH.
Qed.

Lemma set_rows_healthy (db : Relational.pool) (l : list Todo) :
  Relational.healthy db -> Relational.healthy (Relational.set_rows db l).
Proof. done. Qed.

Lemma set_rows_same (db : Relational.pool) :
  Relational.set_rows db (Relational.rows db) = db.
Proof. by destruct db. Qed.

(** ** Marking as done *)

(** Under a primary key the rows around a row do not have its id. *)
Lemma primary_key_others (l1 l2 : list Todo) (t : Todo) :
  NoDup (map ID (l1 ++ t :: l2)) ->
  Forall (fun x => ID x <> ID t) l1 /\ Forall (fun x => ID x <> ID t) l2.
Proof.
  rewrite map_app. simpl.
  intros (_ & Hd & [Ht _]%NoDup_cons)%NoDup_app.
  split; apply Forall_forall; intros x Hx Heq.
  - apply (Hd (ID x)); [by apply list_elem_of_fmap_2|].
    rewrite Heq. apply list_elem_of_here.
  - apply Ht. rewrite <- Heq. by apply list_elem_of_fmap_2.
Qed.

(** C6: PATCH on the path of an id.  When a record has the id, the first
    such record (the only one, under the primary key of the table) gets
    done = true and keeps its id and title, every other record stays as it
    is and where it is, and the answer is 200 with the record as it now
    stands.  When no record has the id, the answer is 404 and nothing
    changes.  This holds for the file-backed server and, while the round
    trips to the database go through, for the relational one on the ids
    the column can hold; on every other id the relational server answers
    500 and changes nothing. *)
Theorem markAsDone_frame (r : Http.request) (id : Z) :
  Http.id_of_done_path (Http.Path r) = Some id ->
  (forall (s : FileBacked.server) (l1 l2 : list Todo) (t : Todo),
      Go.elems (FileBacked.todos s) = l1 ++ t :: l2 ->
      ID t = id ->
      Forall (fun x => ID x <> id) l1 ->
      FileBacked.markAsDone s r
      = (Http.Ok (Http.JObject (mkTodo id (Title t) true)),
         FileBacked.saveTodosToFile
           (FileBacked.set_todos s
              (Go.slice_of (l1 ++ mkTodo id (Title t) true :: l2)))))
  /\ (forall s : FileBacked.server,
         Forall (fun x => ID x <> id) (Go.elems (FileBacked.todos s)) ->
         FileBacked.markAsDone s r = (Http.NotFound, s))
  /\ (forall (db : Relational.pool) (l1 l2 : list Todo) (t : Todo),
         Relational.healthy db ->
         Relational.primary_key db ->
         Relational.rows db = l1 ++ t :: l2 ->
         ID t = id ->
         Relational.int4 id = true ->
         Relational.markAsDone db r
         = (Http.Ok (Http.JObject (mkTodo id (Title t) true)),
            Relational.set_rows db (l1 ++ mkTodo id (Title t) true :: l2)))
  /\ (forall db : Relational.pool,
         Relational.healthy db ->
         Relational.int4 id = true ->
         Forall (fun x => ID x <> id) (Relational.rows db) ->
         Relational.markAsDone db r = (Http.NotFound, db))
  /\ (forall db : Relational.pool,
         Relational.healthy db ->
         Relational.int4 id = false ->
         Relational.markAsDone db r
         = (Http.Error "Failed to mark done" Http.StatusInternalServerError, db)).
Proof.
  unfold Http.id_of_done_path. intros Hid. repeat split.
  - intros s l1 l2 t Hl <- H1.
    unfold FileBacked.markAsDone. rewrite Hid, Hl, lookup_id_first by done.
    cbn zeta.
    rewrite alter_app_r_alt, Nat.sub_diag by lia. simpl.
    by rewrite list_lookup_middle.
  - intros s Hno. unfold FileBacked.markAsDone.
    by rewrite Hid, lookup_id_None.
  - intros db l1 l2 t Hl Hpk Hrows <- Hint.
    unfold Relational.primary_key in Hpk. rewrite Hrows in Hpk.
    apply primary_key_others in Hpk as [H1 H2].
    unfold Relational.markAsDone. rewrite Hid.
    unfold Relational.set_done_by_id, Relational.select_by_id.
    rewrite roundtrip_healthy by done. rewrite Hint. cbn [andb].
    rewrite roundtrip_healthy by by apply set_rows_healthy.
    cbn [Relational.set_rows Relational.rows]. rewrite Hrows.
    rewrite map_app. simpl. rewrite decide_True by done.
    rewrite !(map_other_ids (fun x => mkTodo (ID x) (Title x) true)) by done.
    pose proof (lookup_id_first l1 (mkTodo (ID t) (Title t) true) l2 H1) as Hf.
    unfold FileBacked.lookup_id in Hf. cbn [ID] in Hf. rewrite Hf.
    reflexivity.
  - intros db Hl Hint Hno.
    unfold Relational.markAsDone. rewrite Hid.
    unfold Relational.set_done_by_id, Relational.select_by_id.
    rewrite roundtrip_healthy by done. rewrite Hint. cbn [andb].
    rewrite roundtrip_healthy by by apply set_rows_healthy.
    cbn [Relational.set_rows Relational.rows].
    rewrite (map_other_ids (fun x => mkTodo (ID x) (Title x) true)) by done.
    pose proof (lookup_id_None _ _ Hno) as Hf.
    unfold FileBacked.lookup_id in Hf. rewrite Hf.
    by destruct db.
  - intros db Hl Hint.
    unfold Relational.markAsDone. rewrite Hid.
    unfold Relational.set_done_by_id.
    rewrite roundtrip_healthy by done. by rewrite Hint.
Qed.

Lemma markAsDone_frame_witness :
  let patch := Http.mkRequest "PATCH" "/todos/2/done" None in
  let milk := mkTodo 1 "buy milk" false in
  let walk := mkTodo 2 "walk" false in
  let walked := mkTodo 2 "walk" true in
  FileBacked.markAsDone
    (FileBacked.mkServer (Go.slice_of [milk; walk]) 3 FileBacked.NotExist FileBacked.Writes)
    patch
  = (Http.Ok (Http.JObject walked),
     FileBacked.mkServer (Go.slice_of [milk; walked]) 3
       (FileBacked.Saved (Go.slice_of [milk; walked])) FileBacked.Writes)
  /\ FileBacked.markAsDone
       (FileBacked.mkServer (Go.slice_of [milk]) 3 FileBacked.NotExist FileBacked.Writes)
       patch
     = (Http.NotFound,
        FileBacked.mkServer (Go.slice_of [milk]) 3 FileBacked.NotExist FileBacked.Writes)
  /\ Relational.markAsDone (Relational.mkPool [walk; milk] 2 []) patch
     = (Http.Ok (Http.JObject walked), Relational.mkPool [walked; milk] 2 [])
  /\ Relational.markAsDone (Relational.mkPool [milk] 2 []) patch
     = (Http.NotFound, Relational.mkPool [milk] 2 []).
Proof.
  intros patch milk walk walked.
  destruct (markAsDone_frame patch 2 eq_refl) as (HA & HB & HC & HD & _).
  split_and!.
  - apply (HA (FileBacked.mkServer (Go.slice_of [milk; walk]) 3
                 FileBacked.NotExist FileBacked.Writes) [milk] [] walk);
      [reflexivity|reflexivity|].
    repeat constructor. simpl. lia.
  - apply (HB (FileBacked.mkServer (Go.slice_of [milk]) 3
                 FileBacked.NotExist FileBacked.Writes)).
    repeat constructor. simpl. lia.
  - apply (HC (Relational.mkPool [walk; milk] 2 []) [] [milk] walk);
      [reflexivity| |reflexivity|reflexivity|reflexivity].
    unfold Relational.primary_key. simpl.
    apply NoDup_cons. split; [|apply NoDup_singleton].
    rewrite list_elem_of_singleton. lia.
  - apply (HD (Relational.mkPool [milk] 2 [])); [reflexivity|reflexivity|].
    repeat constructor. simpl. lia.
Defined.

(** C6 as stated fails on the relational server for an id the column
    cannot hold: no row has id 3000000000, the database is up, and PATCH
    on it is answered 500, not 404. *)
Lemma markAsDone_outside_int4 :
  let db := Relational.mkPool [mkTodo 1 "a" false] 1 [] in
  Relational.healthy db
  /\ Forall (fun t => ID t <> 3000000000) (Relational.rows db)
  /\ Relational.router db (Http.mkRequest "PATCH" "/todos/3000000000/done" None)
     = (Http.mkResponse 500 (Http.Text "Failed to mark done"), db).
Proof.
  intros db. split; [reflexivity|]. split; [|reflexivity].
  repeat constructor. simpl. lia.
Qed.

(** ** Reading back what was created *)

(** C9 (amended): in a state where no record carries the value of the
    counter, POST creates the record with the counter as id and the title
    and done of the request, appends it, moves the counter on by one and
    saves; the record that POST answers with is the record that GET answers
    with on a path naming the returned id. *)
Theorem create_then_get (s : FileBacked.server) (r g : Http.request) (t0 : Todo) :
  Http.Body r = Some t0 ->
  Forall (fun t => ID t <> FileBacked.nextID s) (Go.elems (FileBacked.todos s)) ->
  Http.id_of_path (Http.Path g)
  = Http.created_id (fst (FileBacked.createTodo s r)) ->
  let t := mkTodo (FileBacked.nextID s) (Title t0) (Done t0) in
  let s' := FileBacked.saveTodosToFile
              (FileBacked.mkServer
                 (Go.slice_of (Go.elems (FileBacked.todos s) ++ [t]))
                 (Go.wrap (FileBacked.nextID s + 1))
                 (FileBacked.dbFile s) (FileBacked.writable s)) in
  FileBacked.createTodo s r
  = (Http.mkResponse Http.StatusCreated (Http.Json (Http.JObject t)), s')
  /\ FileBacked.getTodo s' g = (Http.Ok (Http.JObject t), s').
Proof.
  unfold Http.id_of_path, FileBacked.createTodo. intros -> Hfresh.
  cbn [fst snd]. intros Hg. cbn zeta. split; [reflexivity|].
  unfold FileBacked.getTodo. rewrite Hg. cbn.
  rewrite todos_saveTodosToFile. cbn.
  pose proof (lookup_id_first (Go.elems (FileBacked.todos s))
                (mkTodo (FileBacked.nextID s) (Title t0) (Done t0)) [] Hfresh)
    as Hf.
  unfold FileBacked.lookup_id in Hf. cbn [ID] in Hf. by rewrite Hf.
Qed.

Lemma create_then_get_witness :
  let s := FileBacked.initial FileBacked.NotExist FileBacked.Writes in
  let t := mkTodo 1 "x" false in
  let s' := FileBacked.mkServer (Go.slice_of [t]) 2
              (FileBacked.Saved (Go.slice_of [t])) FileBacked.Writes in
  FileBacked.createTodo s
    (Http.mkRequest "POST" "/todos" (Some (mkTodo 0 "x" false)))
  = (Http.mkResponse Http.StatusCreated (Http.Json (Http.JObject t)), s')
  /\ FileBacked.getTodo s' (Http.mkRequest "GET" "/todos/1" None)
     = (Http.Ok (Http.JObject t), s').
Proof.
  exact (create_then_get
           (FileBacked.initial FileBacked.NotExist FileBacked.Writes)
           (Http.mkRequest "POST" "/todos" (Some (mkTodo 0 "x" false)))
           (Http.mkRequest "GET" "/todos/1" None)
           (mkTodo 0 "x" false) eq_refl (Forall_nil_2 _) eq_refl).
Defined.

(** C9 as stated fails in a state where a record already carries the value
    of the counter.  A file that holds [MinInt] and then [MaxInt] loads
    with the counter wrapped to [MinInt]; POST is given [MinInt], and GET
    on that id answers with the record of the file, not with the one
    created. *)
Lemma create_then_get_old_record :
  let ts := Go.slice_of [mkTodo Go.MinInt "old" false; mkTodo Go.MaxInt "big" false] in
  let post := Http.mkRequest "POST" "/todos" (Some (mkTodo 0 "new" false)) in
  let get := Http.mkRequest "GET" "/todos/-9223372036854775808" None in
  exists s : FileBacked.server,
    FileBacked.main (FileBacked.Saved ts) FileBacked.Writes = Some s
    /\ fst (FileBacked.router s post)
       = Http.mkResponse 201 (Http.Json (Http.JObject (mkTodo Go.MinInt "new" false)))
    /\ Http.id_of_path (Http.Path get) = Some Go.MinInt
    /\ fst (FileBacked.router (snd (FileBacked.router s post)) get)
       = Http.Ok (Http.JObject (mkTodo Go.MinInt "old" false)).
Proof.
  intros ts post get. eexists. split; [reflexivity|].
  split; [reflexivity|]. split; reflexivity.
Qed.

(** ** What one request does to the ids and to the counter *)

Section Steps.
Import Go Http FileBacked.

Implicit Types (s : server) (r : request).

Lemma ids_saveTodosToFile s : ids (saveTodosToFile s) = ids s.
Proof. unfold ids. by rewrite todos_saveTodosToFile. Qed.

Lemma keeps_same s a : created_id a = None -> keeps s a s.
Proof. intros H. by repeat split. Qed.

Lemma getTodos_keeps s r : keeps s (fst (getTodos s r)) (snd (getTodos s r)).
Proof. by apply keeps_same. Qed.

Lemma getTodo_keeps s r : keeps s (fst (getTodo s r)) (snd (getTodo s r)).
Proof.
  unfold getTodo. destruct (Atoi _) as [id|]; [|by apply keeps_same].
  destruct (lookup_id _ _) as [[i t]|]; by apply keeps_same.
Qed.

Lemma createTodo_steps s r :
  keeps s (fst (createTodo s r)) (snd (createTodo s r))
  \/ creates s (fst (createTodo s r)) (snd (createTodo s r)).
Proof.
  unfold createTodo. destruct (Body r) as [t0|]; [|left; by apply keeps_same].
  right. cbn [fst snd]. split; [done|].
  rewrite ids_saveTodosToFile, nextID_saveTodosToFile.
  split; [done|]. unfold ids. cbn. by rewrite map_app.
Qed.

Lemma updateTodo_keeps s r :
  keeps s (fst (updateTodo s r)) (snd (updateTodo s r)).
Proof.
  unfold updateTodo. destruct (Atoi _) as [id|]; [|by apply keeps_same].
  destruct (Body r) as [u|]; [|by apply keeps_same].
  destruct (lookup_id _ _) as [[i t]|] eqn:Hf; [|by apply keeps_same].
  apply lookup_id_Some in Hf as [Hi Hid].
  cbn [fst snd]. split; [done|].
  rewrite ids_saveTodosToFile, nextID_saveTodosToFile.
  split; [done|]. unfold ids. cbn.
  change (map ID ?l) with (ID <$> l).
  rewrite list_fmap_insert. cbn [ID].
  rewrite list_insert_id; [done|].
  by rewrite list_lookup_fmap, Hi, <- Hid.
Qed.

Lemma markAsDone_keeps s r :
  keeps s (fst (markAsDone s r)) (snd (markAsDone s r)).
Proof.
  unfold markAsDone. destruct (Atoi _) as [id|]; [|by apply keeps_same].
  destruct (lookup_id _ _) as [[i t]|] eqn:Hf; [|by apply keeps_same].
  apply lookup_id_Some in Hf as [Hi Hid].
  cbn zeta. rewrite list_lookup_alter_eq, Hi. cbn [fmap option_fmap option_map fst snd].
  split; [done|].
  rewrite ids_saveTodosToFile, nextID_saveTodosToFile.
  split; [done|]. unfold ids. cbn.
  change (map ID ?l) with (ID <$> l).
  rewrite (list_fmap_alter ID set_done (fun z => z)) by by apply Forall_true.
  by rewrite list_alter_id.
Qed.

Lemma deleteTodo_keeps s r :
  keeps s (fst (deleteTodo s r)) (snd (deleteTodo s r)).
Proof.
  unfold deleteTodo. destruct (Atoi _) as [id|]; [|by apply keeps_same].
  destruct (lookup_id _ _) as [[i t]|] eqn:Hf; [|by apply keeps_same].
  cbn [fst snd]. split; [done|].
  rewrite ids_saveTodosToFile, nextID_saveTodosToFile.
  split; [done|]. unfold ids. cbn.
  rewrite <- delete_take_drop.
  change (map ID ?l) with (ID <$> l).
  apply fmap_sublist, sublist_delete.
Qed.

Lemma router_steps s r :
  keeps s (fst (router s r)) (snd (router s r))
  \/ creates s (fst (router s r)) (snd (router s r)).
Proof.
  unfold router.
  repeat match goal with
         | |- context [if ?b then _ else _] => destruct b
         end;
    auto using getTodos_keeps, getTodo_keeps, createTodo_steps,
      updateTodo_keeps, markAsDone_keeps, deleteTodo_keeps, keeps_same.
Qed.

End Steps.

(** ** Runs of the file-backed server *)

Section Runs.
Import Go Http FileBacked.

Implicit Types (s : server) (r : request) (rs : list request).

Lemma Forall_sublist_of {A} (P : A -> Prop) (l1 l2 : list A) :
  l1 `sublist_of` l2 -> Forall P l2 -> Forall P l1.
Proof.
  intros Hsub%sublist_subseteq. rewrite !Forall_forall. intros H x Hx.
  apply H, Hsub, Hx.
Qed.

Lemma StronglySorted_sublist_of {A} (R : relation A) (l1 l2 : list A) :
  l1 `sublist_of` l2 -> StronglySorted R l2 -> StronglySorted R l1.
Proof.
  induction 1 as [|x l1 l2 Hsub IH|x l1 l2 Hsub IH]; [done|..].
  - intros [Hx Hs]%StronglySorted_cons. apply StronglySorted_cons.
    split; [by eapply Forall_sublist_of|by apply IH].
  - intros [_ Hs]%StronglySorted_cons. by apply IH.
Qed.

Lemma StronglySorted_seqZ (m n : Z) : StronglySorted Z.lt (seqZ m n).
Proof.
  destruct (Z_le_gt_dec n 0) as [Hn|Hn]; [rewrite seqZ_nil by done; constructor|].
  rewrite <- (Z2Nat.id n) by lia.
  induction (Z.to_nat n) as [|k IH]; [rewrite seqZ_nil by done; constructor|].
  rewrite seqZ_S. apply StronglySorted_app_2; [|done|repeat constructor].
  intros x1 x2 [i [-> Hi]%lookup_seqZ]%list_elem_of_lookup ->%list_elem_of_singleton.
  lia.
Qed.

Lemma counter_above_ids s :
  counter_above s <-> Forall (fun i => i < nextID s) (ids s).
Proof.
  unfold counter_above, ids. change (map ID ?l) with (ID <$> l).
  by rewrite Forall_fmap.
Qed.

Lemma ascending_ids s : ascending (elems (todos s)) <-> StronglySorted Z.lt (ids s).
Proof. done. Qed.

Lemma keeps_invariants s a s' :
  keeps s a s' ->
  (counter_above s -> counter_above s')
  /\ (ascending (elems (todos s)) -> ascending (elems (todos s'))).
Proof.
  intros (_ & Hn & Hsub). rewrite !counter_above_ids, !ascending_ids, Hn.
  split; [by apply Forall_sublist_of|by apply StronglySorted_sublist_of].
Qed.

Lemma creates_invariants s a s' :
  creates s a s' ->
  MinInt <= nextID s < MaxInt ->
  counter_above s ->
  nextID s' = nextID s + 1
  /\ counter_above s'
  /\ (ascending (elems (todos s)) -> ascending (elems (todos s'))).
Proof.
  intros (_ & Hn & Hids) Hr. rewrite !counter_above_ids, !ascending_ids.
  rewrite wrap_in_range in Hn by lia. rewrite Hn, Hids. intros Hc.
  split; [done|]. split.
  - apply Forall_app. split; [|repeat constructor; lia].
    eapply Forall_impl; [done|]. simpl. lia.
  - intros Hs. apply StronglySorted_app_2; [|done|repeat constructor].
    intros x1 x2 Hx1 ->%list_elem_of_singleton.
    rewrite Forall_forall in Hc. by apply Hc.
Qed.

Lemma serve_cons s r rs :
  serve s (r :: rs)
  = (fst (router s r) :: fst (serve (snd (router s r)) rs),
     snd (serve (snd (router s r)) rs)).
Proof.
  simpl. destruct (router s r) as [a s1]. simpl.
  by destruct (serve s1 rs).
Qed.

(** A run that does not take the counter past [MaxInt]: the counter stays
    above the dataset, it has moved by the number of ids handed out, these
    ids are the successive values of the counter, and an ascending dataset
    stays ascending. *)
Lemma serve_run rs : forall s,
  counter_above s ->
  MinInt <= nextID s ->
  nextID s + Z.of_nat (length (created_ids (fst (serve s rs)))) <= MaxInt ->
  counter_above (snd (serve s rs))
  /\ nextID (snd (serve s rs))
     = nextID s + Z.of_nat (length (created_ids (fst (serve s rs))))
  /\ created_ids (fst (serve s rs))
     = seqZ (nextID s) (Z.of_nat (length (created_ids (fst (serve s rs)))))
  /\ (ascending (elems (todos s)) -> ascending (elems (todos (snd (serve s rs))))).
Proof.
  induction rs as [|r rs IH]; intros s Hc Hlo Hhi.
  { simpl. split; [done|]. split; [lia|done]. }
  rewrite serve_cons in *. cbn [fst snd] in *.
  unfold created_ids in Hhi |- *. cbn [omap list_omap] in Hhi |- *.
  fold (created_ids (fst (serve (snd (router s r)) rs))) in Hhi |- *.
  destruct (router_steps s r) as [Hk|Hcr].
  - pose proof Hk as (Hnone & Hn & _).
    apply keeps_invariants in Hk as [Hk1 Hk2].
    rewrite Hnone in Hhi |- *.
    destruct (IH (snd (router s r))) as (IH1 & IH2 & IH3 & IH4).
    { by auto. }
    { by rewrite Hn. }
    { by rewrite Hn. }
    rewrite Hn in IH2, IH3. split_and!; [done..|]. intros Ha. by auto.
  - pose proof Hcr as (Hsome & _ & _).
    rewrite Hsome in Hhi |- *. cbn [length] in Hhi |- *.
    apply creates_invariants in Hcr as (Hn & Hc1 & Ha1); [|lia|done].
    destruct (IH (snd (router s r))) as (IH1 & IH2 & IH3 & IH4).
    { done. }
    { rewrite Hn; lia. }
    { rewrite Hn; lia. }
    rewrite Hn in IH2, IH3.
    split; [done|]. split; [lia|]. split; [|intros Ha; by auto].
    rewrite seqZ_cons by lia. f_equal.
    rewrite IH3 at 1. f_equal; lia.
Qed.

End Runs.

(** The scenario of the specification, on a fresh file-backed server. *)
Example file_scenario :
  fst (FileBacked.serve (FileBacked.initial FileBacked.NotExist FileBacked.Writes)
         [Http.mkRequest "POST" "/todos" (Some (mkTodo 0 "buy milk" false));
          Http.mkRequest "POST" "/todos" (Some (mkTodo 0 "second" false));
          Http.mkRequest "PATCH" "/todos/1/done" None;
          Http.mkRequest "DELETE" "/todos/2" None;
          Http.mkRequest "GET" "/todos/2" None;
          Http.mkRequest "GET" "/todos" None])
  = [Http.mkResponse 201 (Http.Json (Http.JObject (mkTodo 1 "buy milk" false)));
     Http.mkResponse 201 (Http.Json (Http.JObject (mkTodo 2 "second" false)));
     Http.mkResponse 200 (Http.Json (Http.JObject (mkTodo 1 "buy milk" true)));
     Http.mkResponse 204 Http.NoBody;
     Http.mkResponse 404 (Http.Text "404 page not found");
     Http.mkResponse 200 (Http.Json (Http.JArray [mkTodo 1 "buy milk" true]))].
Proof. reflexivity. Qed.

(** A counter above the dataset is a value no record carries. *)
Lemma counter_above_fresh (s : FileBacked.server) :
  FileBacked.counter_above s ->
  Forall (fun t => ID t <> FileBacked.nextID s) (Go.elems (FileBacked.todos s)).
Proof.
  unfold FileBacked.counter_above. intros H.
  eapply Forall_impl; [exact H|]. intros t. simpl. lia.
Qed.

(** ** The ids the file-backed server hands out *)

(** C3 (amended): a fresh instance starts with the counter at 1 above an
    empty dataset.  From any state whose counter is above its dataset, in
    every run of requests that does not take the counter past [MaxInt], the
    ids handed out are the successive values of the counter, so each is
    strictly greater than the ones before it and than every id the dataset
    held at the start, deletions or not; and the counter is again above the
    dataset at the end. *)
Theorem created_ids_fresh :
  (forall (f : FileBacked.file) (w : FileBacked.disk),
      FileBacked.nextID (FileBacked.initial f w) = 1
      /\ FileBacked.counter_above (FileBacked.initial f w))
  /\ (forall (s : FileBacked.server) (rs : list Http.request),
         FileBacked.counter_above s ->
         Go.MinInt <= FileBacked.nextID s ->
         FileBacked.nextID s
         + Z.of_nat (length (Http.created_ids (fst (FileBacked.serve s rs))))
         <= Go.MaxInt ->
         let out := Http.created_ids (fst (FileBacked.serve s rs)) in
         let s' := snd (FileBacked.serve s rs) in
         out = seqZ (FileBacked.nextID s) (Z.of_nat (length out))
         /\ StronglySorted Z.lt out
         /\ Forall (fun i => Forall (fun t => ID t < i)
                               (Go.elems (FileBacked.todos s))) out
         /\ FileBacked.counter_above s'
         /\ FileBacked.nextID s' = FileBacked.nextID s + Z.of_nat (length out)).
Proof.
  split; [intros f w; split; [done|by constructor]|].
  intros s rs Hc Hlo Hhi out s'.
  destruct (serve_run rs s Hc Hlo Hhi) as (H1 & H2 & H3 & _).
  fold out in H2, H3. fold s' in H1, H2.
  split_and!; [done| | |done..].
  - rewrite H3. apply StronglySorted_seqZ.
  - rewrite H3. apply Forall_forall.
    intros i [k [-> _]%lookup_seqZ]%list_elem_of_lookup.
    eapply Forall_impl; [exact Hc|]. simpl. lia.
Qed.

Lemma created_ids_fresh_witness :
  let s := FileBacked.initial FileBacked.NotExist FileBacked.Writes in
  let rs := [Http.mkRequest "POST" "/todos" (Some (mkTodo 0 "a" false));
             Http.mkRequest "POST" "/todos" (Some (mkTodo 0 "b" false));
             Http.mkRequest "DELETE" "/todos/2" None;
             Http.mkRequest "POST" "/todos" (Some (mkTodo 0 "c" true))] in
  Http.created_ids (fst (FileBacked.serve s rs)) = [1; 2; 3]
  /\ StronglySorted Z.lt (Http.created_ids (fst (FileBacked.serve s rs)))
  /\ FileBacked.counter_above (snd (FileBacked.serve s rs)).
Proof.
  intros s rs.
  assert (H1 : FileBacked.counter_above s) by constructor.
  assert (H2 : Go.MinInt <= FileBacked.nextID s) by (vm_compute; discriminate).
  assert (H3 : FileBacked.nextID s
               + Z.of_nat (length (Http.created_ids (fst (FileBacked.serve s rs))))
               <= Go.MaxInt) by (vm_compute; discriminate).
  destruct (proj2 created_ids_fresh s rs H1 H2 H3) as (_ & Hs & _ & Hc & _).
  split; [reflexivity|]. split; [exact Hs|exact Hc].
Defined.

(** C3 as stated fails where the counter wraps.  A file whose largest id is
    [MaxInt - 1] loads with the counter at [MaxInt], above the dataset; the
    first POST is given [MaxInt] and leaves the counter at [MinInt], below
    the dataset; the second POST is given [MinInt], smaller than the id
    handed out before it. *)
Lemma counter_wraps_at_MaxInt :
  let old := Go.slice_of [mkTodo (Go.MaxInt - 1) "old" false] in
  let s := FileBacked.mkServer old Go.MaxInt (FileBacked.Saved old) FileBacked.Writes in
  let post := Http.mkRequest "POST" "/todos" (Some (mkTodo 0 "new" false)) in
  FileBacked.main (FileBacked.Saved old) FileBacked.Writes = Some s
  /\ FileBacked.counter_above s
  /\ Http.created_ids (fst (FileBacked.serve s [post; post]))
     = [Go.MaxInt; Go.MinInt]
  /\ Go.MinInt < Go.MaxInt
  /\ ~ FileBacked.counter_above (snd (FileBacked.serve s [post])).
Proof.
  intros old s post. split_and!.
  - reflexivity.
  - repeat constructor.
  - reflexivity.
  - reflexivity.
  - intros H. apply Forall_cons in H as [H _]. vm_compute in H. discriminate.
Qed.

(** ** Loading the file *)

Section Loading.
Import Go FileBacked.

Lemma fold_bump (l : list Todo) : forall n : Z,
  1 <= n <= MaxInt ->
  Forall (fun t => ID t < MaxInt) l ->
  n <= fold_left bump l n <= MaxInt
  /\ Forall (fun t => ID t < fold_left bump l n) l.
Proof.
  induction l as [|t l IH]; intros n Hn Hl; [simpl; by split; [lia|]|].
  apply Forall_cons in Hl as [Ht Hl]. simpl.
  assert (Hb : 1 <= bump n t <= MaxInt /\ n <= bump n t /\ ID t < bump n t).
  { unfold bump. destruct (Z.geb_spec (ID t) n).
    - rewrite wrap_in_range; unfold MinInt, MaxInt, intSize in *; lia.
    - lia. }
  destruct Hb as (Hb1 & Hb2 & Hb3).
  destruct (IH (bump n t) Hb1 Hl) as [IH1 IH2].
  split; [lia|]. constructor; [lia|done].
Qed.

(** Startup on a file whose ids are all below [MaxInt]: the process starts,
    holds the records of the file, and its counter is at least 1 and above
    all of them. *)
Lemma main_Saved (ts : slice) (w : disk) :
  Forall (fun t => ID t < MaxInt) (elems ts) ->
  exists s : server,
    main (Saved ts) w = Some s
    /\ todos s = ts
    /\ 1 <= nextID s <= MaxInt
    /\ counter_above s.
Proof.
  intros Hl. eexists. split; [reflexivity|]. cbn.
  split; [done|].
  destruct (fold_bump (elems ts) 1) as [H1 H2]; [by vm_compute|done|].
  split; [done|]. exact H2.
Qed.

End Loading.

(** C7 (amended): for every stored file whose ids are all below [MaxInt],
    the server starts, and the record created next receives the value of
    the counter, which is at least 1 and strictly greater than every id of
    the file. *)
Theorem load_resumes_above (ts : Go.slice) (w : FileBacked.disk) (r : Http.request) (t0 : Todo) :
  Forall (fun t => ID t < Go.MaxInt) (Go.elems ts) ->
  Http.Body r = Some t0 ->
  exists (s : FileBacked.server) (i : Z),
    FileBacked.main (FileBacked.Saved ts) w = Some s
    /\ Http.created_id (fst (FileBacked.createTodo s r)) = Some i
    /\ 1 <= i
    /\ Forall (fun t => ID t < i) (Go.elems ts).
Proof.
  intros Hl Hb.
  destruct (main_Saved ts w Hl) as (s & Hs & Hts & Hn & Hc).
  exists s, (FileBacked.nextID s). split; [done|].
  unfold FileBacked.createTodo. rewrite Hb. cbn.
  split; [done|]. split; [lia|].
  unfold FileBacked.counter_above in Hc. by rewrite Hts in Hc.
Qed.

Lemma load_resumes_above_witness :
  exists (s : FileBacked.server) (i : Z),
    FileBacked.main
      (FileBacked.Saved
         (Go.slice_of [mkTodo 7 "seven" false; mkTodo 3 "three" true])) FileBacked.Writes
    = Some s
    /\ Http.created_id
         (fst (FileBacked.createTodo s
                 (Http.mkRequest "POST" "/todos" (Some (mkTodo 0 "next" false)))))
       = Some i
    /\ 1 <= i
    /\ Forall (fun t => ID t < i) [mkTodo 7 "seven" false; mkTodo 3 "three" true].
Proof.
  apply (load_resumes_above
           (Go.slice_of [mkTodo 7 "seven" false; mkTodo 3 "three" true]) FileBacked.Writes
           (Http.mkRequest "POST" "/todos" (Some (mkTodo 0 "next" false)))
           (mkTodo 0 "next" false)).
  - repeat constructor.
  - reflexivity.
Defined.

(** C7 as stated fails for a file that holds [MaxInt]: the counter wraps to
    [MinInt] on loading, and the record created next receives [MinInt],
    which is below the maximum id of the file. *)
Lemma load_wraps_at_MaxInt :
  let ts := Go.slice_of [mkTodo Go.MaxInt "last" false] in
  let post := Http.mkRequest "POST" "/todos" (Some (mkTodo 0 "next" false)) in
  exists s : FileBacked.server,
    FileBacked.main (FileBacked.Saved ts) FileBacked.Writes = Some s
    /\ FileBacked.nextID s = Go.MinInt
    /\ Http.created_id (fst (FileBacked.createTodo s post)) = Some Go.MinInt
    /\ ~ Go.MaxInt < Go.MinInt.
Proof.
  intros ts post. eexists. split; [reflexivity|].
  split; [reflexivity|]. split; [reflexivity|]. by vm_compute.
Qed.

(** ** The order of a listing *)

Section Order.
Import Go Http.



Lemma order_by_id_Permutation (l : list Todo) : Relational.order_by_id l ≡ₚ l.
Proof. apply merge_sort_Permutation. Qed.




End Order.




(** * Further properties of the two servers *)

(** ** Paths *)

Section Paths.
Import Go Http.

Implicit Types (p q s seg : string).

Lemma length_append p s :
  String.length (String.append p s) = (String.length p + String.length s)%nat.
Proof. induction p as [|c p IH]; simpl; [done|]. by rewrite IH. Qed.

Lemma substring_all s : substring 0 (String.length s) s = s.
Proof. induction s as [|c s IH]; simpl; [done|]. by rewrite IH. Qed.

Lemma substring_head p s : substring 0 (String.length p) (String.append p s) = p.
Proof.
  induction p as [|c p IH]; simpl; [by destruct s|]. by rewrite IH.
Qed.

Lemma substring_tail p s n :
  n = String.length s ->
  substring (String.length p) n (String.append p s) = s.
Proof.
  intros ->. induction p as [|c p IH]; simpl; [apply substring_all|done].
Qed.

Lemma HasPrefix_append p s : HasPrefix (String.append p s) p = true.
Proof.
  unfold HasPrefix. rewrite substring_head, String.eqb_refl, length_append.
  rewrite andb_true_r. apply Nat.leb_le. lia.
Qed.

Lemma TrimPrefix_append p s : TrimPrefix (String.append p s) p = s.
Proof.
  unfold TrimPrefix. rewrite HasPrefix_append.
  apply substring_tail. rewrite length_append. lia.
Qed.

Lemma HasSuffix_append s q : HasSuffix (String.append s q) q = true.
Proof.
  unfold HasSuffix. rewrite length_append.
  replace (String.length s + String.length q - String.length q)%nat
    with (String.length s) by lia.
  rewrite substring_tail by done. rewrite String.eqb_refl, andb_true_r.
  apply Nat.leb_le. lia.
Qed.

Lemma TrimSuffix_append s q : TrimSuffix (String.append s q) q = s.
Proof.
  unfold TrimSuffix. rewrite HasSuffix_append, length_append.
  replace (String.length s + String.length q - String.length q)%nat
    with (String.length s) by lia.
  apply substring_head.
Qed.

(** No digit string holds a slash. *)
Lemma digits_slash s q (n : Z) :
  digits (String.append s (String "/" q)) n = None.
Proof.
  revert n. induction s as [|c s IH]; intros n; simpl; [done|].
  destruct (digit c); [apply IH|done].
Qed.

Lemma Atoi_slash s q : Atoi (String.append s (String "/" q)) = None.
Proof.
  destruct s as [|c s]; [done|].
  unfold Atoi. cbn [String.append].
  destruct (Ascii.eqb c "-" || Ascii.eqb c "+").
  - destruct s as [|c' s]; [done|].
    change (String c' (String.append s (String "/" q)))
      with (String.append (String c' s) (String "/" q)).
    remember (String.append (String c' s) (String "/" q)) as s1 eqn:E.
    destruct s1; [done|]. by rewrite E, digits_slash.
  - change (String c (String.append s (String "/" q)))
      with (String.append (String c s) (String "/" q)).
    by rewrite digits_slash.
Qed.

Lemma id_of_path_append seg :
  id_of_path (String.append "/todos/" seg) = Atoi seg.
Proof. unfold id_of_path. by rewrite TrimPrefix_append. Qed.

End Paths.

(** X1: for every segment, the handlers of [/todos/{id}] read the id off
    [/todos/<segment>] as [Atoi] of the segment, and [markAsDone] reads it
    off [/todos/<segment>/done] the same way. *)
Theorem path_id_extraction (seg : string) :
  Http.id_of_path (String.append "/todos/" seg) = Go.Atoi seg
  /\ Http.id_of_done_path
       (String.append "/todos/" (String.append seg "/done"))
     = Go.Atoi seg.
Proof.
  unfold Http.id_of_path, Http.id_of_done_path.
  by rewrite !TrimPrefix_append, TrimSuffix_append.
Qed.

(** X2: GET, PUT and DELETE on a path [/todos/<segment>/done] are answered
    400 Invalid ID by both servers, whatever the segment and the body, and
    change nothing: the mark-done path names a record for PATCH only. *)
Theorem done_path_other_methods (seg : string) (b : option Todo) (m : string) :
  m = "GET" \/ m = "PUT" \/ m = "DELETE" ->
  let r := Http.mkRequest m
             (String.append "/todos/" (String.append seg "/done")) b in
  (forall s : FileBacked.server,
      FileBacked.router s r
      = (Http.Error "Invalid ID" Http.StatusBadRequest, s))
  /\ (forall db : Relational.pool,
         Relational.router db r
         = (Http.Error "Invalid ID" Http.StatusBadRequest, db)).
Proof.
  intros Hm r.
  assert (Hid : Http.id_of_path (Http.Path r) = None).
  { unfold r. cbn [Http.Path].
    rewrite id_of_path_append.
    change "/done" with (String "/" "done"). apply Atoi_slash. }
  assert (Hp : Go.HasPrefix (Http.Path r) "/todos/" = true)
    by apply HasPrefix_append.
  split; intros x.
  - destruct (file_bad_id x r) as [H _]. destruct (H Hid) as (Hg & Hu & Hd).
    unfold FileBacked.router. rewrite Hp.
    destruct Hm as [->|[->| ->]]; simpl; [exact Hg|exact Hu|exact Hd].
  - destruct (relational_bad_id x r) as [H _]. destruct (H Hid) as (Hg & Hu & Hd).
    unfold Relational.router. rewrite Hp.
    destruct Hm as [->|[->| ->]]; simpl; [exact Hg|exact Hu|exact Hd].
Qed.

Lemma done_path_other_methods_witness :
  FileBacked.router (FileBacked.initial FileBacked.NotExist FileBacked.Writes)
    (Http.mkRequest "DELETE" "/todos/7/done" None)
  = (Http.Error "Invalid ID" Http.StatusBadRequest,
     FileBacked.initial FileBacked.NotExist FileBacked.Writes).
Proof.
  exact (proj1 (done_path_other_methods "7" None "DELETE"
                  (or_intror (or_intror eq_refl)))
           (FileBacked.initial FileBacked.NotExist FileBacked.Writes)).
Defined.

(** ** The handlers of the file-backed server, one by one *)

Section FileHandlers.
Import Go Http FileBacked.

Implicit Types (s : server) (r : request) (l : list Todo) (t : Todo).

(** What a successful search says about the slice. *)
Lemma lookup_id_split l (id : Z) (i : nat) t :
  lookup_id id l = Some (i, t) ->
  l = take i l ++ t :: drop (S i) l
  /\ length (take i l) = i
  /\ Forall (fun x => ID x <> id) (take i l)
  /\ ID t = id.
Proof.
  unfold lookup_id. intros (Hi & Hid & Hfirst)%list_find_Some.
  pose proof (lookup_lt_Some _ _ _ Hi) as Hlt.
  split; [by rewrite take_drop_middle|].
  split; [rewrite length_take; lia|]. split; [|done].
  apply Forall_lookup. intros j y Hj.
  pose proof (lookup_lt_Some _ _ _ Hj) as Hjlt. rewrite length_take in Hjlt.
  rewrite lookup_take_lt in Hj by lia. apply (Hfirst j y Hj). lia.
Qed.

(** A search that fails says that no record has the id. *)
Lemma lookup_id_None_inv l (id : Z) :
  lookup_id id l = None -> Forall (fun x => ID x <> id) l.
Proof. unfold lookup_id. by intros H%list_find_None. Qed.

(** The record [markAsDone] encodes is always there. *)
Lemma markAsDone_found s r (id : Z) (i : nat) t :
  id_of_done_path (Path r) = Some id ->
  lookup_id id (elems (todos s)) = Some (i, t) ->
  markAsDone s r
  = (Ok (JObject (set_done t)),
     saveTodosToFile
       (set_todos s (slice_of (alter set_done i (elems (todos s)))))).
Proof.
  unfold id_of_done_path, markAsDone. intros -> Hf. rewrite Hf. cbn zeta.
  apply lookup_id_Some in Hf as [Hi _].
  by rewrite list_lookup_alter_eq, Hi.
Qed.

End FileHandlers.

(** X3: the file-backed GET of one record never changes the server; it
    answers 400 when the segment is no integer, 200 with the first record
    of the slice that has the id, and 404 when no record has it. *)
Theorem file_get (s : FileBacked.server) (r : Http.request) :
  snd (FileBacked.getTodo s r) = s
  /\ (Http.id_of_path (Http.Path r) = None ->
      fst (FileBacked.getTodo s r)
      = Http.Error "Invalid ID" Http.StatusBadRequest)
  /\ (forall (id : Z) (l1 l2 : list Todo) (t : Todo),
         Http.id_of_path (Http.Path r) = Some id ->
         Go.elems (FileBacked.todos s) = l1 ++ t :: l2 ->
         ID t = id ->
         Forall (fun x => ID x <> id) l1 ->
         fst (FileBacked.getTodo s r) = Http.Ok (Http.JObject t))
  /\ (forall id : Z,
         Http.id_of_path (Http.Path r) = Some id ->
         Forall (fun x => ID x <> id) (Go.elems (FileBacked.todos s)) ->
         fst (FileBacked.getTodo s r) = Http.NotFound).
Proof.
  unfold Http.id_of_path, FileBacked.getTodo. split_and!.
  - destruct (Go.Atoi _); [|done]. by destruct (FileBacked.lookup_id _ _) as [[]|].
  - by intros ->.
  - intros id l1 l2 t -> Hl <- H1. by rewrite Hl, lookup_id_first.
  - intros id -> Hno. by rewrite lookup_id_None.
Qed.

Lemma file_get_witness :
  fst (FileBacked.getTodo
         (FileBacked.mkServer
            (Go.slice_of [mkTodo 4 "a" false; mkTodo 9 "b" true]) 10
            FileBacked.NotExist FileBacked.Writes)
         (Http.mkRequest "GET" "/todos/9" None))
  = Http.Ok (Http.JObject (mkTodo 9 "b" true)).
Proof.
  refine (proj1 (proj2 (proj2
            (file_get
               (FileBacked.mkServer
                  (Go.slice_of [mkTodo 4 "a" false; mkTodo 9 "b" true]) 10
                  FileBacked.NotExist FileBacked.Writes)
               (Http.mkRequest "GET" "/todos/9" None))))
            9 [mkTodo 4 "a" false] [] (mkTodo 9 "b" true)
            eq_refl eq_refl eq_refl _).
  repeat constructor. simpl. lia.
Defined.

(** X4: the file-backed PUT.  On an id that the first matching record [t]
    carries, the record is replaced in place by the title and done of the
    body under the id of the path (the id in the body is not looked at),
    nothing else in the slice moves, the counter stays, and the answer is
    200 with the new record; on an id that no record carries the answer is
    404 and the server is as before. *)
Theorem file_update (s : FileBacked.server) (r : Http.request) (id : Z) (u : Todo) :
  Http.id_of_path (Http.Path r) = Some id ->
  Http.Body r = Some u ->
  (forall (l1 l2 : list Todo) (t : Todo),
      Go.elems (FileBacked.todos s) = l1 ++ t :: l2 ->
      ID t = id ->
      Forall (fun x => ID x <> id) l1 ->
      fst (FileBacked.updateTodo s r)
      = Http.Ok (Http.JObject (mkTodo id (Title u) (Done u)))
      /\ Go.elems (FileBacked.todos (snd (FileBacked.updateTodo s r)))
         = l1 ++ mkTodo id (Title u) (Done u) :: l2
      /\ FileBacked.nextID (snd (FileBacked.updateTodo s r))
         = FileBacked.nextID s)
  /\ (Forall (fun x => ID x <> id) (Go.elems (FileBacked.todos s)) ->
      FileBacked.updateTodo s r = (Http.NotFound, s)).
Proof.
  intros Hid Hb. split.
  - intros l1 l2 t Hl <- H1.
    rewrite (file_update_existing s r u t l1 l2 Hid Hb Hl H1). cbn [fst snd].
    by rewrite todos_saveTodosToFile, nextID_saveTodosToFile.
  - by apply (file_update_missing s r id u).
Qed.

Lemma file_update_witness :
  let s := FileBacked.mkServer
             (Go.slice_of [mkTodo 4 "a" false; mkTodo 9 "b" true]) 10
             FileBacked.NotExist FileBacked.Writes in
  let r := Http.mkRequest "PUT" "/todos/4" (Some (mkTodo 77 "new" true)) in
  fst (FileBacked.updateTodo s r) = Http.Ok (Http.JObject (mkTodo 4 "new" true))
  /\ Go.elems (FileBacked.todos (snd (FileBacked.updateTodo s r)))
     = [mkTodo 4 "new" true; mkTodo 9 "b" true]
  /\ FileBacked.nextID (snd (FileBacked.updateTodo s r)) = 10.
Proof.
  intros s r.
  exact (proj1 (file_update s r 4 (mkTodo 77 "new" true) eq_refl eq_refl)
           [] [mkTodo 9 "b" true] (mkTodo 4 "a" false)
           eq_refl eq_refl (Forall_nil_2 _)).
Defined.

(** X5: the file-backed DELETE.  On an id that the first matching record
    carries, that record alone leaves the slice, the others keep their
    order, the counter stays, and the answer is 204 without a body; on an
    id that no record carries the answer is 404 and the server is as
    before. *)
Theorem file_delete (s : FileBacked.server) (r : Http.request) (id : Z) :
  Http.id_of_path (Http.Path r) = Some id ->
  (forall (l1 l2 : list Todo) (t : Todo),
      Go.elems (FileBacked.todos s) = l1 ++ t :: l2 ->
      ID t = id ->
      Forall (fun x => ID x <> id) l1 ->
      fst (FileBacked.deleteTodo s r)
      = Http.mkResponse Http.StatusNoContent Http.NoBody
      /\ Go.elems (FileBacked.todos (snd (FileBacked.deleteTodo s r)))
         = l1 ++ l2
      /\ FileBacked.nextID (snd (FileBacked.deleteTodo s r))
         = FileBacked.nextID s)
  /\ (Forall (fun x => ID x <> id) (Go.elems (FileBacked.todos s)) ->
      FileBacked.deleteTodo s r = (Http.NotFound, s)).
Proof.
  intros Hid. split; [|by apply file_delete_missing].
  intros l1 l2 t Hl <- H1.
  unfold Http.id_of_path in Hid. unfold FileBacked.deleteTodo.
  rewrite Hid, Hl, lookup_id_first by done. cbn [fst snd].
  rewrite todos_saveTodosToFile, nextID_saveTodosToFile. cbn.
  split; [done|]. split; [|done].
  rewrite take_app_length, drop_app_ge by lia.
  by replace (S (length l1) - length l1)%nat with 1%nat by lia.
Qed.

Lemma file_delete_witness :
  let s := FileBacked.mkServer
             (Go.slice_of [mkTodo 4 "a" false; mkTodo 9 "b" true]) 10
             FileBacked.NotExist FileBacked.Writes in
  let r := Http.mkRequest "DELETE" "/todos/4" None in
  fst (FileBacked.deleteTodo s r)
  = Http.mkResponse Http.StatusNoContent Http.NoBody
  /\ Go.elems (FileBacked.todos (snd (FileBacked.deleteTodo s r)))
     = [mkTodo 9 "b" true]
  /\ FileBacked.nextID (snd (FileBacked.deleteTodo s r)) = 10.
Proof.
  intros s r.
  exact (proj1 (file_delete s r 4 eq_refl)
           [] [mkTodo 9 "b" true] (mkTodo 4 "a" false)
           eq_refl eq_refl (Forall_nil_2 _)).
Defined.

(** ** Requests that leave the file-backed server alone *)

Section FileQuiet.
Import Go Http FileBacked.

Implicit Types (s : server) (r : request).

Lemma createTodo_quiet s r :
  status (fst (createTodo s r)) = 400 \/ status (fst (createTodo s r)) = 404 ->
  snd (createTodo s r) = s.
Proof.
  unfold createTodo. destruct (Body r) as [t0|]; [|done].
  cbn. unfold StatusCreated. lia.
Qed.

Lemma updateTodo_quiet s r :
  status (fst (updateTodo s r)) = 400 \/ status (fst (updateTodo s r)) = 404 ->
  snd (updateTodo s r) = s.
Proof.
  unfold updateTodo. destruct (Atoi _) as [id|]; [|done].
  destruct (Body r) as [u|]; [|done].
  destruct (lookup_id _ _) as [[i t]|]; [|done].
  cbn. unfold StatusOK. lia.
Qed.

Lemma markAsDone_quiet s r :
  status (fst (markAsDone s r)) = 400 \/ status (fst (markAsDone s r)) = 404 ->
  snd (markAsDone s r) = s.
Proof.
  destruct (id_of_done_path (Path r)) as [id|] eqn:Hid.
  - destruct (lookup_id id (elems (todos s))) as [[i t]|] eqn:Hf.
    + rewrite (markAsDone_found s r id i t Hid Hf). cbn. unfold StatusOK. lia.
    + unfold id_of_done_path in Hid. unfold markAsDone. by rewrite Hid, Hf.
  - unfold id_of_done_path in Hid. unfold markAsDone. by rewrite Hid.
Qed.

Lemma deleteTodo_quiet s r :
  status (fst (deleteTodo s r)) = 400 \/ status (fst (deleteTodo s r)) = 404 ->
  snd (deleteTodo s r) = s.
Proof.
  unfold deleteTodo. destruct (Atoi _) as [id|]; [|done].
  destruct (lookup_id _ _) as [[i t]|]; [|done].
  cbn. unfold StatusNoContent. lia.
Qed.

Lemma getTodo_same s r : snd (getTodo s r) = s.
Proof.
  unfold getTodo. destruct (Atoi _) as [id|]; [|done].
  by destruct (lookup_id _ _) as [[i t]|].
Qed.

End FileQuiet.

(** X6: a request that the file-backed server answers with 400 or 404, and
    every GET, leaves the server exactly as it was: the slice, the counter
    and the file. *)
Theorem file_no_effect (s : FileBacked.server) (r : Http.request) :
  Http.status (fst (FileBacked.router s r)) = 400
  \/ Http.status (fst (FileBacked.router s r)) = 404
  \/ Http.Method r = "GET" ->
  snd (FileBacked.router s r) = s.
Proof.
  unfold FileBacked.router.
  destruct (String.eqb (Http.Method r) Http.MethodGet
            && String.eqb (Http.Path r) "/todos"); [done|].
  destruct (String.eqb (Http.Method r) Http.MethodPost
            && String.eqb (Http.Path r) "/todos") eqn:E2.
  { intros [H|[H|H]]; [apply createTodo_quiet; auto..|].
    rewrite H in E2. discriminate. }
  destruct (String.eqb (Http.Method r) Http.MethodGet
            && Go.HasPrefix (Http.Path r) "/todos/");
    [intros _; apply getTodo_same|].
  destruct (String.eqb (Http.Method r) Http.MethodPut
            && Go.HasPrefix (Http.Path r) "/todos/") eqn:E4.
  { intros [H|[H|H]]; [apply updateTodo_quiet; auto..|].
    rewrite H in E4. discriminate. }
  destruct (String.eqb (Http.Method r) Http.MethodDelete
            && Go.HasPrefix (Http.Path r) "/todos/") eqn:E5.
  { intros [H|[H|H]]; [apply deleteTodo_quiet; auto..|].
    rewrite H in E5. discriminate. }
  destruct (String.eqb (Http.Method r) Http.MethodPatch
            && Go.HasSuffix (Http.Path r) "/done") eqn:E6; [|done].
  intros [H|[H|H]]; [apply markAsDone_quiet; auto..|].
  rewrite H in E6. discriminate.
Qed.

Lemma file_no_effect_witness :
  let s := FileBacked.mkServer (Go.slice_of [mkTodo 1 "a" false]) 2
             FileBacked.NotExist FileBacked.Writes in
  snd (FileBacked.router s (Http.mkRequest "DELETE" "/todos/5" None)) = s
  /\ snd (FileBacked.router s (Http.mkRequest "GET" "/todos/1" None)) = s.
Proof.
  intros s. split.
  - apply (file_no_effect s (Http.mkRequest "DELETE" "/todos/5" None)).
    right. left. reflexivity.
  - apply (file_no_effect s (Http.mkRequest "GET" "/todos/1" None)).
    right. right. reflexivity.
Defined.

(** X7: the file-backed server answers with 200, 201, 204, 400 or 404 and
    never with 500; the relational server answers with one of these or with
    500. *)
Theorem router_statuses :
  (forall (s : FileBacked.server) (r : Http.request),
      In (Http.status (fst (FileBacked.router s r))) [200; 201; 204; 400; 404])
  /\ (forall (db : Relational.pool) (r : Http.request),
         In (Http.status (fst (Relational.router db r)))
            [200; 201; 204; 400; 404; 500]).
Proof.
  split.
  - intros s r.
    unfold FileBacked.router, FileBacked.getTodos, FileBacked.getTodo,
      FileBacked.createTodo, FileBacked.updateTodo, FileBacked.markAsDone,
      FileBacked.deleteTodo.
    repeat case_match; simpl; tauto.
  - intros db r.
    unfold Relational.router, Relational.getTodos, Relational.getTodoById,
      Relational.createTodo, Relational.updateTodo, Relational.markAsDone,
      Relational.deleteTodo.
    repeat case_match; simpl; tauto.
Qed.

(** ** The file behind the file-backed server *)

Section Persistence.
Import Go Http FileBacked.

Implicit Types (s x : server) (r : request).

Lemma file_step_same s : file_step s s.
Proof. split; [done|by left]. Qed.

Lemma file_step_save s x :
  writable x = writable s -> dbFile x = dbFile s ->
  file_step s (saveTodosToFile x).
Proof.
  intros Hw Hf. unfold file_step, synced, saveTodosToFile.
  rewrite <- Hw. destruct (writable x) eqn:E; cbn.
  - split; [done|by right].
  - split; [done|by right].
  - split; [done|by right].
Qed.

Lemma router_file_step s r : file_step s (snd (router s r)).
Proof.
  unfold router, getTodos, getTodo, createTodo, updateTodo, markAsDone,
    deleteTodo.
  repeat case_match; cbn [snd];
    (apply file_step_same || by apply file_step_save).
Qed.

End Persistence.

(** X8: what a request does to the file of the file-backed server.  What
    [os.WriteFile] does never changes.  A request leaves the whole server
    as it is, or it has saved: the file then holds exactly the slice in
    memory when writes succeed, is as before when the file cannot be
    opened, and holds no JSON text when the write fails after the open.
    So a file that holds the slice keeps holding it through every run of
    successful writes; a file that cannot be opened stays as it is whatever
    happens in memory; and once a write has failed after the open the file
    is unreadable and a restart is fatal. *)
Theorem file_persistence :
  (forall (s : FileBacked.server) (r : Http.request),
      FileBacked.file_step s (snd (FileBacked.router s r)))
  /\ (forall (s : FileBacked.server) (rs : list Http.request),
         FileBacked.writable s = FileBacked.Writes ->
         FileBacked.synced s ->
         FileBacked.synced (snd (FileBacked.serve s rs)))
  /\ (forall (s : FileBacked.server) (rs : list Http.request),
         FileBacked.writable s = FileBacked.OpenFails ->
         FileBacked.dbFile (snd (FileBacked.serve s rs)) = FileBacked.dbFile s)
  /\ (forall (s : FileBacked.server) (rs : list Http.request),
         FileBacked.writable s = FileBacked.WriteFails ->
         snd (FileBacked.serve s rs) = s
         \/ (FileBacked.dbFile (snd (FileBacked.serve s rs)) = FileBacked.Malformed
             /\ FileBacked.restart (snd (FileBacked.serve s rs)) = None)).
Proof.
  split; [apply router_file_step|]. split_and!.
  - intros s rs. revert s. induction rs as [|r rs IH]; intros s Hw Hs; [done|].
    rewrite serve_cons. cbn [snd].
    destruct (router_file_step s r) as (Hw' & Hstep).
    apply IH; [by rewrite Hw'|].
    rewrite Hw in Hstep. by destruct Hstep as [->|H].
  - intros s rs. revert s. induction rs as [|r rs IH]; intros s Hw; [done|].
    rewrite serve_cons. cbn [snd].
    destruct (router_file_step s r) as (Hw' & Hstep).
    rewrite IH by by rewrite Hw'.
    rewrite Hw in Hstep. by destruct Hstep as [->|H].
  - assert (Hbad : forall (rs : list Http.request) (s : FileBacked.server),
               FileBacked.writable s = FileBacked.WriteFails ->
               FileBacked.dbFile s = FileBacked.Malformed ->
               FileBacked.dbFile (snd (FileBacked.serve s rs))
               = FileBacked.Malformed).
    { induction rs as [|r rs IH]; intros s Hw Hm; [done|].
      rewrite serve_cons. cbn [snd].
      destruct (router_file_step s r) as (Hw' & Hstep).
      apply IH; [by rewrite Hw'|].
      rewrite Hw in Hstep. by destruct Hstep as [->|H]. }
    intros s rs. revert s. induction rs as [|r rs IH]; intros s Hw; [by left|].
    rewrite serve_cons. cbn [snd].
    destruct (router_file_step s r) as (Hw' & Hstep).
    rewrite Hw in Hstep. destruct Hstep as [Hsame|Hm].
    + rewrite Hsame. by apply IH.
    + right. assert (Hfin := Hbad rs _ (eq_trans Hw' Hw) Hm).
      split; [done|]. unfold FileBacked.restart, FileBacked.main,
        FileBacked.loadTodosFromFile. cbn. by rewrite Hfin.
Qed.

Lemma file_persistence_witness :
  let post := Http.mkRequest "POST" "/todos" (Some (mkTodo 0 "a" false)) in
  FileBacked.synced
    (snd (FileBacked.serve
            (FileBacked.mkServer (Go.slice_of []) 1
               (FileBacked.Saved (Go.slice_of [])) FileBacked.Writes)
            [post; Http.mkRequest "DELETE" "/todos/1" None]))
  /\ FileBacked.dbFile
       (snd (FileBacked.serve
               (FileBacked.initial FileBacked.NotExist FileBacked.OpenFails)
               [post]))
     = FileBacked.NotExist
  /\ FileBacked.restart
       (snd (FileBacked.serve
               (FileBacked.mkServer (Go.slice_of []) 1
                  (FileBacked.Saved (Go.slice_of [])) FileBacked.WriteFails)
               [post]))
     = None.
Proof.
  intros post. destruct file_persistence as (_ & H1 & H2 & H3). split_and!.
  - apply H1; reflexivity.
  - apply (H2 (FileBacked.initial FileBacked.NotExist FileBacked.OpenFails)).
    reflexivity.
  - destruct (H3 (FileBacked.mkServer (Go.slice_of []) 1
                    (FileBacked.Saved (Go.slice_of [])) FileBacked.WriteFails)
                [post] eq_refl) as [Hsame|[_ Hr]]; [discriminate Hsame|exact Hr].
Defined.

(** ** Stopping and starting again *)

Section Restart.
Import Go Http FileBacked.


End Restart.



(** The id that was deleted before the restart is handed out again after
    it. *)
Example restart_reuses_id :
  let post t := Http.mkRequest "POST" "/todos" (Some (mkTodo 0 t false)) in
  let s := snd (FileBacked.serve
                  (FileBacked.initial FileBacked.NotExist FileBacked.Writes)
                  [post "a"; post "b"; Http.mkRequest "DELETE" "/todos/2" None]) in
  exists s' : FileBacked.server,
    FileBacked.restart s = Some s'
    /\ Http.created_id (fst (FileBacked.router s' (post "c"))) = Some 2.
Proof. intros post s. eexists. split; reflexivity. Qed.

(** ** Doing it twice *)

Section Twice.
Import Go Http FileBacked.

Implicit Types (s : server) (r : request) (l : list Todo) (t : Todo).

Lemma updateTodo_found s r (id : Z) (u : Todo) (i : nat) t :
  id_of_path (Path r) = Some id ->
  Body r = Some u ->
  lookup_id id (elems (todos s)) = Some (i, t) ->
  updateTodo s r
  = (Ok (JObject (mkTodo id (Title u) (Done u))),
     saveTodosToFile
       (set_todos s
          (slice_of (<[i := mkTodo id (Title u) (Done u)]> (elems (todos s)))))).
Proof.
  unfold id_of_path, updateTodo. intros -> -> Hf. by rewrite Hf.
Qed.

Lemma deleteTodo_found s r (id : Z) (i : nat) t :
  id_of_path (Path r) = Some id ->
  lookup_id id (elems (todos s)) = Some (i, t) ->
  deleteTodo s r
  = (mkResponse StatusNoContent NoBody,
     saveTodosToFile
       (set_todos s
          (slice_of (take i (elems (todos s)) ++ drop (S i) (elems (todos s)))))).
Proof.
  unfold id_of_path, deleteTodo. intros -> Hf. by rewrite Hf.
Qed.

(** Saving the same slice twice is saving it once. *)
Lemma save_twice s (ts : slice) :
  saveTodosToFile (set_todos (saveTodosToFile (set_todos s ts)) ts)
  = saveTodosToFile (set_todos s ts).
Proof.
  unfold saveTodosToFile, set_todos. cbn.
  destruct (writable s) eqn:E; cbn; by rewrite ?E.
Qed.

(** A record put in place of the first one of its id is found where that
    one was. *)
Lemma lookup_id_replaced l (id : Z) (i : nat) t (t' : Todo) :
  lookup_id id l = Some (i, t) ->
  ID t' = id ->
  lookup_id id (<[i := t']> l) = Some (i, t') /\ <[i := t']> (<[i := t']> l) = <[i := t']> l.
Proof.
  intros (Hl & Hlen & H1 & Hid)%lookup_id_split Hid'.
  remember (take i l) as l1 eqn:E1. remember (drop (S i) l) as l2 eqn:E2.
  clear E1 E2. subst l i.
  assert (Hins : <[length l1 := t']> (l1 ++ t :: l2) = l1 ++ t' :: l2).
  { by rewrite insert_app_r_alt, Nat.sub_diag by lia. }
  rewrite Hins. split.
  - rewrite <- Hid'. apply lookup_id_first. by rewrite Hid'.
  - by rewrite insert_app_r_alt, Nat.sub_diag by lia.
Qed.

Lemma alter_as_insert l (i : nat) t :
  l !! i = Some t -> alter set_done i l = <[i := set_done t]> l.
Proof.
  intros Hi. apply list_eq. intros j.
  destruct (decide (i = j)) as [->|Hne].
  - rewrite list_lookup_alter_eq, list_lookup_insert_eq, Hi;
      [done|by eapply lookup_lt_Some].
  - by rewrite list_lookup_alter_ne, list_lookup_insert_ne.
Qed.

End Twice.

(** X10: in the file-backed server, PATCH [.../done] and PUT are
    idempotent: sent a second time to the server the first one left, the
    same request gets the same answer and leaves that server as it is. *)
Theorem file_idempotent (s : FileBacked.server) (r : Http.request) :
  FileBacked.markAsDone (snd (FileBacked.markAsDone s r)) r
  = FileBacked.markAsDone s r
  /\ FileBacked.updateTodo (snd (FileBacked.updateTodo s r)) r
     = FileBacked.updateTodo s r.
Proof.
  split.
  - destruct (Http.id_of_done_path (Http.Path r)) as [id|] eqn:Hid.
    2:{ unfold Http.id_of_done_path in Hid. unfold FileBacked.markAsDone.
        by rewrite Hid. }
    destruct (FileBacked.lookup_id id (Go.elems (FileBacked.todos s)))
      as [[i t]|] eqn:Hf.
    2:{ unfold Http.id_of_done_path in Hid. unfold FileBacked.markAsDone.
        rewrite Hid, Hf. cbn [snd]. by rewrite Hf. }
    rewrite (markAsDone_found s r id i t Hid Hf). cbn [snd].
    pose proof (lookup_id_Some _ _ _ _ Hf) as [Hi Ht].
    rewrite (alter_as_insert _ _ _ Hi).
    destruct (lookup_id_replaced _ id i t (FileBacked.set_done t) Hf Ht)
      as [Hf' Hins].
    rewrite (markAsDone_found _ r id i (FileBacked.set_done t) Hid);
      [|by rewrite todos_saveTodosToFile].
    rewrite todos_saveTodosToFile. cbn [FileBacked.todos FileBacked.set_todos Go.elems].
    rewrite (alter_as_insert _ _ (FileBacked.set_done t));
      [|by apply lookup_id_Some in Hf' as [? _]].
    change (FileBacked.set_done (FileBacked.set_done t))
      with (FileBacked.set_done t).
    rewrite Hins. f_equal.
    apply (save_twice s).
  - destruct (Http.id_of_path (Http.Path r)) as [id|] eqn:Hid.
    2:{ unfold Http.id_of_path in Hid. unfold FileBacked.updateTodo.
        by rewrite Hid. }
    destruct (Http.Body r) as [u|] eqn:Hb.
    2:{ unfold Http.id_of_path in Hid. unfold FileBacked.updateTodo.
        by rewrite Hid, Hb. }
    destruct (FileBacked.lookup_id id (Go.elems (FileBacked.todos s)))
      as [[i t]|] eqn:Hf.
    2:{ unfold Http.id_of_path in Hid. unfold FileBacked.updateTodo.
        rewrite Hid, Hb, Hf. cbn [snd]. by rewrite Hf. }
    rewrite (updateTodo_found s r id u i t Hid Hb Hf). cbn [snd].
    destruct (lookup_id_replaced _ id i t (mkTodo id (Title u) (Done u)) Hf eq_refl)
      as [Hf' Hins].
    rewrite (updateTodo_found _ r id u i (mkTodo id (Title u) (Done u)) Hid Hb);
      [|by rewrite todos_saveTodosToFile].
    rewrite todos_saveTodosToFile. cbn [FileBacked.todos FileBacked.set_todos Go.elems].
    rewrite Hins. f_equal.
    apply (save_twice s).
Qed.

(** ** Unique ids in the file-backed server *)

Section Unique.
Import Go Http FileBacked.

Implicit Types (s : server) (r : request) (rs : list request).

(** A property of the list of ids that subsequences keep, and that adding
    a value above all of them at the end keeps, holds along every run that
    does not take the counter past [MaxInt]. *)
Lemma serve_preserves (P : list Z -> Prop) :
  (forall l1 l2, l1 `sublist_of` l2 -> P l2 -> P l1) ->
  (forall l n, Forall (fun i => i < n) l -> P l -> P (l ++ [n])) ->
  forall rs s,
    counter_above s ->
    MinInt <= nextID s ->
    nextID s + Z.of_nat (length (created_ids (fst (serve s rs)))) <= MaxInt ->
    P (ids s) ->
    P (ids (snd (serve s rs))).
Proof.
  intros Hsub Hsnoc. induction rs as [|r rs IH]; intros s Hc Hlo Hhi HP; [done|].
  rewrite serve_cons in *. cbn [fst snd] in *.
  unfold created_ids in Hhi. cbn [omap list_omap] in Hhi.
  fold (created_ids (fst (serve (snd (router s r)) rs))) in Hhi.
  destruct (router_steps s r) as [Hk|Hcr].
  - pose proof Hk as (Hnone & Hn & Hsl).
    apply keeps_invariants in Hk as [Hk1 _].
    rewrite Hnone in Hhi.
    apply IH; [by auto|by rewrite Hn|by rewrite Hn|by eapply Hsub].
  - pose proof Hcr as (Hsome & _ & Hids).
    rewrite Hsome in Hhi. cbn [length] in Hhi.
    apply creates_invariants in Hcr as (Hn & Hc1 & _); [|lia|done].
    apply IH; [done|rewrite Hn; lia|rewrite Hn; lia|].
    rewrite Hids. apply Hsnoc; [|done]. by apply counter_above_ids.
Qed.

End Unique.

(** X11: in the file-backed server, ids that are unique stay unique: from
    a state whose counter is above its dataset, along every run of
    requests that does not take the counter past [MaxInt], no two records
    of the dataset ever share an id. *)
Theorem ids_stay_unique (s : FileBacked.server) (rs : list Http.request) :
  FileBacked.counter_above s ->
  Go.MinInt <= FileBacked.nextID s ->
  FileBacked.nextID s
  + Z.of_nat (length (Http.created_ids (fst (FileBacked.serve s rs))))
  <= Go.MaxInt ->
  NoDup (FileBacked.ids s) ->
  NoDup (FileBacked.ids (snd (FileBacked.serve s rs))).
Proof.
  apply (serve_preserves NoDup).
  - intros l1 l2 Hsub Hnd. by eapply sublist_NoDup.
  - intros l n Hl Hnd. apply NoDup_app. split; [done|].
    split; [|apply NoDup_singleton].
    intros x Hx ->%list_elem_of_singleton.
    rewrite Forall_forall in Hl. specialize (Hl _ Hx). lia.
Qed.

Lemma ids_stay_unique_witness :
  NoDup (FileBacked.ids
           (snd (FileBacked.serve
                   (FileBacked.mkServer
                      (Go.slice_of [mkTodo 5 "e" false; mkTodo 2 "b" false]) 6
                      FileBacked.NotExist FileBacked.Writes)
                   [Http.mkRequest "POST" "/todos" (Some (mkTodo 2 "x" false));
                    Http.mkRequest "PUT" "/todos/5" (Some (mkTodo 2 "y" true))]))).
Proof.
  apply ids_stay_unique.
  - repeat constructor.
  - vm_compute. discriminate.
  - vm_compute. discriminate.
  - unfold FileBacked.ids. simpl.
    apply NoDup_cons. split; [|apply NoDup_singleton].
    rewrite list_elem_of_singleton. lia.
Defined.

(** X12: in the file-backed server with unique ids, after DELETE on the
    path of an id, whatever its answer, no record has the id: GET on it is
    answered 404, and a second DELETE is answered 404 and changes
    nothing. *)
Theorem file_delete_then_gone (s : FileBacked.server) (r g : Http.request) (id : Z) :
  Http.id_of_path (Http.Path r) = Some id ->
  Http.id_of_path (Http.Path g) = Some id ->
  NoDup (FileBacked.ids s) ->
  let s' := snd (FileBacked.deleteTodo s r) in
  Forall (fun t => ID t <> id) (Go.elems (FileBacked.todos s'))
  /\ FileBacked.getTodo s' g = (Http.NotFound, s')
  /\ FileBacked.deleteTodo s' g = (Http.NotFound, s').
Proof.
  intros Hr Hg Hnd s'.
  assert (Hgone : Forall (fun t => ID t <> id) (Go.elems (FileBacked.todos s'))).
  { unfold s'.
    destruct (FileBacked.lookup_id id (Go.elems (FileBacked.todos s)))
      as [[i t]|] eqn:Hf.
    - rewrite (deleteTodo_found s r id i t Hr Hf). cbn [snd].
      rewrite todos_saveTodosToFile. cbn.
      apply lookup_id_split in Hf as (Hl & _ & _ & Hid).
      unfold FileBacked.ids in Hnd. rewrite Hl in Hnd.
      apply primary_key_others in Hnd as [H1 H2].
      rewrite Hid in H1, H2. by apply Forall_app.
    - apply lookup_id_None_inv in Hf.
      by rewrite (file_delete_missing s r id Hr Hf). }
  split; [done|]. split.
  - unfold Http.id_of_path in Hg. unfold FileBacked.getTodo.
    by rewrite Hg, lookup_id_None.
  - by apply (file_delete_missing s' g id).
Qed.

Lemma file_delete_then_gone_witness :
  let s := FileBacked.mkServer
             (Go.slice_of [mkTodo 1 "a" false; mkTodo 2 "b" false]) 3
             FileBacked.NotExist FileBacked.Writes in
  let s' := snd (FileBacked.deleteTodo s
                   (Http.mkRequest "DELETE" "/todos/2" None)) in
  FileBacked.getTodo s' (Http.mkRequest "GET" "/todos/2" None)
  = (Http.NotFound, s').
Proof.
  intros s s'.
  refine (proj1 (proj2 (file_delete_then_gone s
            (Http.mkRequest "DELETE" "/todos/2" None)
            (Http.mkRequest "GET" "/todos/2" None) 2 eq_refl eq_refl _))).
  unfold FileBacked.ids. simpl.
  apply NoDup_cons. split; [|apply NoDup_singleton].
  rewrite list_elem_of_singleton. lia.
Defined.

(** ** The handlers of the relational server and the link to the database *)

Section RelationalHandlers.
Import Go Http Relational.

Implicit Types (db : pool) (r : request) (l : list bool).


Lemma roundtrip_passes db l :
  link db = true :: l ->
  roundtrip db = (true, mkPool (rows db) (last_value db) l).
Proof. unfold roundtrip. by intros ->. Qed.

(** A round trip by itself touches neither the table nor the sequence. *)
Lemma roundtrip_keeps db (ok : bool) (db1 : pool) :
  roundtrip db = (ok, db1) ->
  rows db1 = rows db /\ last_value db1 = last_value db.
Proof.
  unfold roundtrip. destruct (link db); intros [= <- <-]; done.
Qed.

Lemma select_by_id_found db (l1 l2 : list Todo) (t : Todo) :
  healthy db ->
  rows db = l1 ++ t :: l2 ->
  Forall (fun x => ID x <> ID t) l1 ->
  select_by_id db (ID t) = (Some t, db).
Proof.
  intros Hl Hrows H1. unfold select_by_id.
  rewrite roundtrip_healthy by done. rewrite Hrows.
  pose proof (lookup_id_first l1 t l2 H1) as Hf.
  unfold FileBacked.lookup_id in Hf. by rewrite Hf.
Qed.

Lemma select_by_id_missing db (id : Z) :
  healthy db ->
  Forall (fun x => ID x <> id) (rows db) ->
  select_by_id db id = (None, db).
Proof.
  intros Hl Hno. unfold select_by_id.
  rewrite roundtrip_healthy by done.
  pose proof (lookup_id_None _ _ Hno) as Hf.
  unfold FileBacked.lookup_id in Hf. by rewrite Hf.
Qed.

End RelationalHandlers.

(** X13: the relational GET of one record, while the round trip goes
    through: 400 when the segment is no integer, 200 with the row of the
    id, 404 when no row has it; the database is left as it is. *)
Theorem relational_get (db : Relational.pool) (r : Http.request) :
  Relational.healthy db ->
  (Http.id_of_path (Http.Path r) = None ->
   Relational.getTodoById db r
   = (Http.Error "Invalid ID" Http.StatusBadRequest, db))
  /\ (forall (l1 l2 : list Todo) (t : Todo),
         Http.id_of_path (Http.Path r) = Some (ID t) ->
         Relational.rows db = l1 ++ t :: l2 ->
         Forall (fun x => ID x <> ID t) l1 ->
         Relational.getTodoById db r = (Http.Ok (Http.JObject t), db))
  /\ (forall id : Z,
         Http.id_of_path (Http.Path r) = Some id ->
         Forall (fun x => ID x <> id) (Relational.rows db) ->
         Relational.getTodoById db r = (Http.NotFound, db)).
Proof.
  intros Hl. unfold Http.id_of_path, Relational.getTodoById. split_and!.
  - by intros ->.
  - intros l1 l2 t -> Hrows H1. by rewrite (select_by_id_found db l1 l2 t).
  - intros id -> Hno. by rewrite select_by_id_missing.
Qed.

Lemma relational_get_witness :
  Relational.getTodoById
    (Relational.mkPool [mkTodo 3 "c" false; mkTodo 1 "a" true] 3 [])
    (Http.mkRequest "GET" "/todos/1" None)
  = (Http.Ok (Http.JObject (mkTodo 1 "a" true)),
     Relational.mkPool [mkTodo 3 "c" false; mkTodo 1 "a" true] 3 []).
Proof.
  refine (proj1 (proj2 (relational_get
            (Relational.mkPool [mkTodo 3 "c" false; mkTodo 1 "a" true] 3 [])
            (Http.mkRequest "GET" "/todos/1" None) eq_refl))
            [mkTodo 3 "c" false] [] (mkTodo 1 "a" true) eq_refl eq_refl _).
  repeat constructor. simpl. lia.
Defined.




(** X15: the relational mark-done is a write followed by a read.  When the
    round trip of the write goes through and the one of the read fails,
    then for an id the column can hold the rows of the id are marked done
    in the table and the answer is 404; for any other id the write itself
    is an error, the answer is 500 and the read is not attempted. *)
Theorem relational_markAsDone_torn (db : Relational.pool) (l : list bool)
    (r : Http.request) (id : Z) :
  Http.id_of_done_path (Http.Path r) = Some id ->
  Relational.link db = true :: false :: l ->
  Relational.markAsDone db r
  = if Relational.int4 id
    then (Http.NotFound,
          Relational.mkPool
            (map (fun t => if decide (ID t = id)
                           then mkTodo (ID t) (Title t) true else t)
                 (Relational.rows db))
            (Relational.last_value db) l)
    else (Http.Error "Failed to mark done" Http.StatusInternalServerError,
          Relational.mkPool (Relational.rows db) (Relational.last_value db)
            (false :: l)).
Proof.
  unfold Http.id_of_done_path. intros Hid Hl.
  unfold Relational.markAsDone, Relational.set_done_by_id,
    Relational.select_by_id.
  rewrite Hid, (roundtrip_passes db (false :: l) Hl).
  destruct (Relational.int4 id); cbn; reflexivity.
Qed.

Lemma relational_markAsDone_torn_witness :
  Relational.router (Relational.mkPool [mkTodo 1 "a" false] 1 [true; false])
    (Http.mkRequest "PATCH" "/todos/1/done" None)
  = (Http.NotFound, Relational.mkPool [mkTodo 1 "a" true] 1 []).
Proof.
  exact (relational_markAsDone_torn
           (Relational.mkPool [mkTodo 1 "a" false] 1 [true; false]) []
           (Http.mkRequest "PATCH" "/todos/1/done" None) 1 eq_refl eq_refl).
Defined.

(** ** What one request does to the table and to the sequence *)

Section RelationalSteps.
Import Go Http Relational.

Implicit Types (db : pool) (r : request).

Lemma relational_keeps_same db a db' :
  created_id a = None ->
  rows db' = rows db ->
  last_value db <= last_value db' ->
  keeps db a db'.
Proof. intros H1 H2 H3. split; [done|]. split; [done|]. by rewrite H2. Qed.

Lemma map_ID_kept (f : Todo -> Todo) (id : Z) (l : list Todo) :
  (forall t, ID (f t) = ID t) ->
  map ID (map (fun t => if decide (ID t = id) then f t else t) l) = map ID l.
Proof.
  intros Hf. induction l as [|t l IH]; simpl; [done|].
  rewrite IH. by destruct (decide (ID t = id)); rewrite ?Hf.
Qed.

(** Reading the rows of a result touches neither the table nor the
    sequence. *)
Lemma fetch_keeps (l : list Todo) : forall db (got : list Todo) (db' : pool),
  fetch l db = (got, db') ->
  rows db' = rows db /\ last_value db' = last_value db.
Proof.
  induction l as [|t l IH]; intros db got db'; simpl.
  { by intros [= <- <-]. }
  destruct (roundtrip db) as [[] db1] eqn:E;
    apply roundtrip_keeps in E as [E1 E2].
  - destruct (fetch l db1) as [got1 db2] eqn:E'. intros [= <- <-].
    apply IH in E' as [E1' E2']. by rewrite E1', E2'.
  - by intros [= <- <-].
Qed.

Lemma relational_getTodos_keeps db r :
  keeps db (fst (getTodos db r)) (snd (getTodos db r)).
Proof.
  unfold getTodos, select_all.
  destruct (roundtrip db) as [[] db1] eqn:E;
    apply roundtrip_keeps in E as [E1 E2].
  - destruct (fetch _ db1) as [got db2] eqn:E'.
    apply fetch_keeps in E' as [E1' E2']. cbn.
    apply relational_keeps_same; [done|by rewrite E1'|lia].
  - cbn. apply relational_keeps_same; (done || lia).
Qed.

Lemma relational_getTodoById_keeps db r :
  keeps db (fst (getTodoById db r)) (snd (getTodoById db r)).
Proof.
  unfold getTodoById, select_by_id.
  destruct (Atoi _) as [id|]; [|by apply relational_keeps_same].
  destruct (roundtrip db) as [[] db1] eqn:E;
    apply roundtrip_keeps in E as [E1 E2]; cbn.
  - destruct (list_find _ _) as [[i t]|]; cbn;
      apply relational_keeps_same; (done || lia).
  - apply relational_keeps_same; (done || lia).
Qed.

(** Closes a [keeps] goal once the handler is unfolded and evaluated. *)
Ltac close_keeps E1 E2 :=
  cbn; split; [done|]; split; [cbn; lia|];
  cbn; rewrite ?map_ID_kept, ?E1 by done; done.

Lemma relational_updateTodo_keeps db r :
  keeps db (fst (updateTodo db r)) (snd (updateTodo db r)).
Proof.
  unfold updateTodo, update_by_id, set_rows, keeps.
  destruct (Atoi _) as [id|]; [|by apply relational_keeps_same].
  destruct (Body r) as [u|]; [|by apply relational_keeps_same].
  destruct (roundtrip db) as [[] db1] eqn:E;
    apply roundtrip_keeps in E as [E1 E2];
    destruct (int4 id); close_keeps E1 E2.
Qed.

Lemma relational_markAsDone_keeps db r :
  keeps db (fst (markAsDone db r)) (snd (markAsDone db r)).
Proof.
  unfold markAsDone, set_done_by_id, select_by_id, set_rows, keeps.
  destruct (Atoi _) as [id|]; [|by apply relational_keeps_same].
  destruct (roundtrip db) as [[] db1] eqn:E;
    apply roundtrip_keeps in E as [E1 E2]; [|close_keeps E1 E2].
  destruct (int4 id); [cbn [andb]|close_keeps E1 E2].
  destruct (roundtrip (mkPool _ _ _)) as [[] db2] eqn:E';
    apply roundtrip_keeps in E' as [E1' E2']; cbn in E1', E2'.
  - destruct (list_find _ _) as [[i t]|]; cbn; rewrite E1', E2';
      close_keeps E1 E2.
  - cbn. rewrite E1', E2'. close_keeps E1 E2.
Qed.

Lemma relational_deleteTodo_keeps db r :
  keeps db (fst (deleteTodo db r)) (snd (deleteTodo db r)).
Proof.
  unfold deleteTodo, delete_by_id, set_rows, keeps.
  destruct (Atoi _) as [id|]; [|by apply relational_keeps_same].
  destruct (roundtrip db) as [[] db1] eqn:E;
    apply roundtrip_keeps in E as [E1 E2]; [|close_keeps E1 E2].
  destruct (int4 id); [|close_keeps E1 E2].
  cbn. split; [done|]. split; [lia|]. rewrite E1.
  change (map ID ?k) with (ID <$> k). apply fmap_sublist, sublist_filter.
Qed.

Lemma relational_createTodo_steps db r :
  keeps db (fst (createTodo db r)) (snd (createTodo db r))
  \/ creates db (fst (createTodo db r)) (snd (createTodo db r)).
Proof.
  unfold createTodo, insert_returning_id, set_rows, keeps, creates.
  destruct (Body r) as [t0|]; [|left; by apply relational_keeps_same].
  destruct (roundtrip db) as [[] db1] eqn:E;
    apply roundtrip_keeps in E as [E1 E2]; cbn [negb];
    [|left; close_keeps E1 E2].
  destruct (MaxSerial <=? last_value db1); [left; close_keeps E1 E2|].
  destruct (list_find _ _) as [[i t]|] eqn:Hf.
  - left. close_keeps E1 E2.
  - right. cbn in Hf. apply list_find_None in Hf. rewrite E1, E2 in Hf.
    cbn. rewrite ?E1, ?E2. split; [done|]. split; [done|]. split; [done|].
    by rewrite map_app.
Qed.

Lemma relational_router_steps db r :
  keeps db (fst (router db r)) (snd (router db r))
  \/ creates db (fst (router db r)) (snd (router db r)).
Proof.
  unfold router.
  repeat match goal with
         | |- context [if ?b then _ else _] => destruct b
         end;
    auto using relational_getTodos_keeps, relational_getTodoById_keeps,
      relational_createTodo_steps, relational_updateTodo_keeps,
      relational_markAsDone_keeps, relational_deleteTodo_keeps.
  left. by apply relational_keeps_same.
Qed.

Lemma relational_serve_cons db r (rs : list request) :
  serve db (r :: rs)
  = (fst (router db r) :: fst (serve (snd (router db r)) rs),
     snd (serve (snd (router db r)) rs)).
Proof.
  simpl. destruct (router db r) as [a db1]. simpl.
  by destruct (serve db1 rs).
Qed.

End RelationalSteps.

(** ** Runs of the relational server *)

Section RelationalRuns.
Import Go Http Relational.

Implicit Types (db : pool) (r : request) (rs : list request).

Lemma relational_step_invariants db a db' :
  keeps db a db' \/ creates db a db' ->
  last_value db <= last_value db'
  /\ (primary_key db -> primary_key db')
  /\ (sequence_above db -> sequence_above db').
Proof.
  unfold primary_key, sequence_above.
  intros [(_ & Hn & Hsub)|(_ & Hn & Hfresh & Hids)].
  - split; [done|]. split.
    + intros Hpk. by eapply sublist_NoDup.
    + intros Hs. apply (Forall_fmap ID (fun i => i <= last_value db')).
      eapply Forall_sublist_of; [exact Hsub|].
      apply (Forall_fmap ID (fun i => i <= last_value db')).
      eapply Forall_impl; [exact Hs|]. simpl. lia.
  - split; [lia|]. split.
    + intros Hpk. rewrite Hids. apply NoDup_app. split; [done|].
      split; [|apply NoDup_singleton].
      intros x Hx Hx'. apply list_elem_of_singleton in Hx'. subst x.
      apply list_elem_of_fmap in Hx as [t [Heq Ht]].
      rewrite Forall_forall in Hfresh. by apply (Hfresh t).
    + intros Hs. apply (Forall_fmap ID (fun i => i <= last_value db')).
      change (ID <$> rows db') with (map ID (rows db')). rewrite Hids.
      apply Forall_app. split; [|repeat constructor; lia].
      apply (Forall_fmap ID (fun i => i <= last_value db')).
      eapply Forall_impl; [exact Hs|]. simpl. lia.
Qed.

Lemma relational_serve_run rs : forall db,
  last_value db <= last_value (snd (serve db rs))
  /\ (primary_key db -> primary_key (snd (serve db rs)))
  /\ (sequence_above db -> sequence_above (snd (serve db rs)))
  /\ StronglySorted Z.lt (created_ids (fst (serve db rs)))
  /\ Forall (fun i => last_value db < i <= last_value (snd (serve db rs)))
            (created_ids (fst (serve db rs))).
Proof.
  induction rs as [|r rs IH]; intros db.
  { simpl. split_and!; [lia|done|done|constructor|constructor]. }
  rewrite relational_serve_cons. cbn [fst snd].
  destruct (IH (snd (router db r))) as (IH1 & IH2 & IH3 & IH4 & IH5).
  pose proof (relational_router_steps db r) as Hstep.
  destruct (relational_step_invariants _ _ _ Hstep) as (H1 & H2 & H3).
  split; [lia|]. split; [by auto|]. split; [by auto|].
  unfold created_ids. cbn [omap list_omap].
  fold (created_ids (fst (serve (snd (router db r)) rs))).
  destruct Hstep as [(Hnone & _ & _)|(Hsome & Hn & _ & _)].
  - rewrite Hnone. split; [done|].
    eapply Forall_impl; [exact IH5|]. simpl. lia.
  - rewrite Hsome. split.
    + constructor; [done|]. eapply Forall_impl; [exact IH5|]. simpl. lia.
    + constructor; [lia|]. eapply Forall_impl; [exact IH5|]. simpl. lia.
Qed.

End RelationalRuns.

(** X16: the relational server keeps the two invariants of its table
    along every run of requests, whatever round trips fail: no two rows
    share an id, and no row has an id beyond the last value of the
    sequence. *)
Theorem relational_invariants (db : Relational.pool) (rs : list Http.request) :
  (Relational.primary_key db ->
   Relational.primary_key (snd (Relational.serve db rs)))
  /\ (Relational.sequence_above db ->
      Relational.sequence_above (snd (Relational.serve db rs))).
Proof.
  destruct (relational_serve_run rs db) as (_ & H1 & H2 & _). by split.
Qed.

Lemma relational_invariants_witness :
  Relational.primary_key
    (snd (Relational.serve (Relational.mkPool [mkTodo 1 "a" false] 1 [true; false])
            [Http.mkRequest "POST" "/todos" (Some (mkTodo 1 "b" false));
             Http.mkRequest "POST" "/todos" (Some (mkTodo 1 "c" false))])).
Proof.
  apply relational_invariants.
  unfold Relational.primary_key. simpl. apply NoDup_singleton.
Defined.

(** X17: the ids the relational server hands out along a run of requests
    are strictly increasing, each beyond the value the sequence had at the
    start; when no row had an id beyond that value, each is strictly
    greater than every id the table held at the start. *)
Theorem relational_created_ids (db : Relational.pool) (rs : list Http.request) :
  let out := Http.created_ids (fst (Relational.serve db rs)) in
  StronglySorted Z.lt out
  /\ Forall (fun i => Relational.last_value db < i) out
  /\ (Relational.sequence_above db ->
      Forall (fun i => Forall (fun t => ID t < i) (Relational.rows db)) out).
Proof.
  intros out.
  destruct (relational_serve_run rs db) as (_ & _ & _ & H1 & H2).
  fold out in H1, H2. split; [done|]. split.
  - eapply Forall_impl; [exact H2|]. simpl. lia.
  - intros Hs. eapply Forall_impl; [exact H2|]. simpl. intros i Hi.
    eapply Forall_impl; [exact Hs|]. simpl. lia.
Qed.

Lemma relational_created_ids_witness :
  let db := Relational.mkPool [mkTodo 2 "b" false] 2 [] in
  let rs := [Http.mkRequest "POST" "/todos" (Some (mkTodo 0 "c" false));
             Http.mkRequest "DELETE" "/todos/3" None;
             Http.mkRequest "POST" "/todos" (Some (mkTodo 0 "d" false))] in
  Http.created_ids (fst (Relational.serve db rs)) = [3; 4]
  /\ Forall (fun i => Forall (fun t => ID t < i) (Relational.rows db))
            (Http.created_ids (fst (Relational.serve db rs))).
Proof.
  intros db rs. split; [reflexivity|].
  apply (relational_created_ids db rs).
  repeat constructor. simpl. lia.
Defined.

(** ** Create, read, update and delete against the table *)

(** X18: the relational server, while the round trips go through, the
    sequence is not exhausted and no row is beyond it: the record that POST
    answers with has the next value of the sequence as id, the title and
    done of the request, is appended to the table, and is what GET answers
    with on a path naming that id. *)
Theorem relational_create_then_get (db : Relational.pool) (r g : Http.request)
    (t0 : Todo) :
  Relational.healthy db ->
  Relational.sequence_above db ->
  Relational.last_value db < Relational.MaxSerial ->
  Http.Body r = Some t0 ->
  Http.id_of_path (Http.Path g) = Some (Relational.last_value db + 1) ->
  let t := mkTodo (Relational.last_value db + 1) (Title t0) (Done t0) in
  let db' := Relational.mkPool (Relational.rows db ++ [t])
               (Relational.last_value db + 1) (Relational.link db) in
  Relational.createTodo db r
  = (Http.mkResponse Http.StatusCreated (Http.Json (Http.JObject t)), db')
  /\ Relational.getTodoById db' g = (Http.Ok (Http.JObject t), db').
Proof.
  intros Hl Hs Hmax Hb Hg t db'.
  assert (Hfresh : Forall (fun x => ID x <> Relational.last_value db + 1)
                     (Relational.rows db)).
  { eapply Forall_impl; [exact Hs|]. simpl. lia. }
  split.
  - unfold Relational.createTodo, Relational.insert_returning_id.
    rewrite Hb, roundtrip_healthy by done. cbn [negb].
    destruct (Z.leb_spec Relational.MaxSerial (Relational.last_value db));
      [lia|].
    cbn [Relational.rows Relational.last_value].
    pose proof (lookup_id_None _ _ Hfresh) as Hf.
    unfold FileBacked.lookup_id in Hf. by rewrite Hf.
  - unfold Http.id_of_path in Hg. unfold Relational.getTodoById. rewrite Hg.
    pose proof (select_by_id_found db' (Relational.rows db) [] t Hl eq_refl Hfresh)
      as Hsel.
    unfold t in Hsel at 1. cbn [ID] in Hsel. by rewrite Hsel.
Qed.

Lemma relational_create_then_get_witness :
  let db := Relational.mkPool [mkTodo 1 "a" false] 1 [] in
  let t := mkTodo 2 "b" true in
  let db' := Relational.mkPool [mkTodo 1 "a" false; t] 2 [] in
  Relational.createTodo db (Http.mkRequest "POST" "/todos" (Some (mkTodo 9 "b" true)))
  = (Http.mkResponse Http.StatusCreated (Http.Json (Http.JObject t)), db')
  /\ Relational.getTodoById db' (Http.mkRequest "GET" "/todos/2" None)
     = (Http.Ok (Http.JObject t), db').
Proof.
  intros db t db'.
  apply (relational_create_then_get db
           (Http.mkRequest "POST" "/todos" (Some (mkTodo 9 "b" true)))
           (Http.mkRequest "GET" "/todos/2" None) (mkTodo 9 "b" true)).
  - reflexivity.
  - repeat constructor. simpl. lia.
  - reflexivity.
  - reflexivity.
  - reflexivity.
Defined.

(** X19: the relational DELETE, while the round trips go through.  For an
    id the column can hold, every row of the id leaves the table, every
    other row stays, in order, the answer is 204, and afterwards GET on the
    id is answered 404.  For any other id the call is an error: the answer
    is 500 and the table is as before. *)
Theorem relational_delete (db : Relational.pool) (r g : Http.request) (id : Z) :
  Relational.healthy db ->
  Http.id_of_path (Http.Path r) = Some id ->
  Http.id_of_path (Http.Path g) = Some id ->
  let db' := Relational.set_rows db
               (filter (fun t => ID t <> id) (Relational.rows db)) in
  (Relational.int4 id = true ->
   Relational.deleteTodo db r
   = (Http.mkResponse Http.StatusNoContent Http.NoBody, db')
   /\ Forall (fun t => ID t <> id) (Relational.rows db')
   /\ (forall t, t ∈ Relational.rows db -> ID t <> id -> t ∈ Relational.rows db')
   /\ Relational.rows db' `sublist_of` Relational.rows db
   /\ Relational.getTodoById db' g = (Http.NotFound, db'))
  /\ (Relational.int4 id = false ->
      Relational.deleteTodo db r
      = (Http.Error "Delete failed" Http.StatusInternalServerError, db)).
Proof.
  intros Hl Hr Hg db'. unfold Http.id_of_path in Hr. split.
  - intros Hint.
    assert (Hgone : Forall (fun t => ID t <> id) (Relational.rows db')).
    { apply Forall_forall. intros t Ht. cbn in Ht.
      by apply list_elem_of_filter in Ht as [? _]. }
    split_and!.
    + unfold Relational.deleteTodo, Relational.delete_by_id.
      by rewrite Hr, roundtrip_healthy, Hint.
    + done.
    + intros t Ht Hne. cbn. by apply list_elem_of_filter.
    + apply sublist_filter.
    + unfold Http.id_of_path in Hg. unfold Relational.getTodoById. rewrite Hg.
      by rewrite select_by_id_missing.
  - intros Hint. unfold Relational.deleteTodo, Relational.delete_by_id.
    by rewrite Hr, roundtrip_healthy, Hint.
Qed.

Lemma relational_delete_witness :
  let db := Relational.mkPool [mkTodo 1 "a" false; mkTodo 2 "b" false] 2 [] in
  let db' := Relational.mkPool [mkTodo 1 "a" false] 2 [] in
  Relational.deleteTodo db (Http.mkRequest "DELETE" "/todos/2" None)
  = (Http.mkResponse Http.StatusNoContent Http.NoBody, db')
  /\ Relational.getTodoById db' (Http.mkRequest "GET" "/todos/2" None)
     = (Http.NotFound, db')
  /\ Relational.deleteTodo db (Http.mkRequest "DELETE" "/todos/3000000000" None)
     = (Http.Error "Delete failed" Http.StatusInternalServerError, db).
Proof.
  intros db db'.
  destruct (proj1 (relational_delete db
                     (Http.mkRequest "DELETE" "/todos/2" None)
                     (Http.mkRequest "GET" "/todos/2" None) 2
                     eq_refl eq_refl eq_refl) eq_refl)
    as (H1 & _ & _ & _ & H2).
  split; [exact H1|]. split; [exact H2|].
  exact (proj2 (relational_delete db
                  (Http.mkRequest "DELETE" "/todos/3000000000" None)
                  (Http.mkRequest "GET" "/todos/3000000000" None) 3000000000
                  eq_refl eq_refl eq_refl) eq_refl).
Defined.

(** X20: the relational list of a table that has rows, while the round
    trip goes through, is answered 200 with the JSON array of the rows
    sorted by id, and changes nothing. *)
Theorem relational_list_rows (db : Relational.pool) (r : Http.request) :
  Relational.healthy db ->
  Relational.rows db <> [] ->
  Relational.getTodos db r
  = (Http.Ok (Http.JArray (Relational.order_by_id (Relational.rows db))), db).
Proof.
  intros Hl Hne. unfold Relational.getTodos, Relational.select_all.
  rewrite roundtrip_healthy, fetch_healthy by done. rewrite collect_rows.
  destruct (Relational.order_by_id (Relational.rows db)) as [|t l] eqn:E; [|done].
  destruct Hne. apply Permutation_nil_r.
  rewrite <- E. symmetry. apply order_by_id_Permutation.
Qed.

Lemma relational_list_rows_witness :
  Relational.getTodos
    (Relational.mkPool [mkTodo 3 "c" false; mkTodo 1 "a" true] 3 [])
    (Http.mkRequest "GET" "/todos" None)
  = (Http.Ok (Http.JArray [mkTodo 1 "a" true; mkTodo 3 "c" false]),
     Relational.mkPool [mkTodo 3 "c" false; mkTodo 1 "a" true] 3 []).
Proof.
  apply (relational_list_rows
           (Relational.mkPool [mkTodo 3 "c" false; mkTodo 1 "a" true] 3 [])
           (Http.mkRequest "GET" "/todos" None)); [reflexivity|discriminate].
Defined.

(** No handler of either server reads the id of the decoded body:
    for every method and path, the answer and the next state are the same
    whatever id the body carries. *)
Lemma body_id_never_read (m p : string) (t : Todo) (i : Z) :
  let r := Http.mkRequest m p (Some t) in
  let r' := Http.mkRequest m p (Some (mkTodo i (Title t) (Done t))) in
  (forall s : FileBacked.server, FileBacked.router s r = FileBacked.router s r')
  /\ (forall db : Relational.pool, Relational.router db r = Relational.router db r').
Proof. split; intros; reflexivity. Qed.

(** X21: the relational PUT on an id that a row carries, while the round
    trip goes through and under the primary key: that row gets the title
    and done of the body and keeps its id and its place, every other row
    stays as it is, and the answer is 200 with the row as it now stands
    (the id of a row being one the column can hold; the call is an error
    and the answer 500 for any other id). *)
Theorem relational_update (db : Relational.pool) (r : Http.request) (u t : Todo)
    (l1 l2 : list Todo) :
  Relational.healthy db ->
  Relational.primary_key db ->
  Http.id_of_path (Http.Path r) = Some (ID t) ->
  Http.Body r = Some u ->
  Relational.rows db = l1 ++ t :: l2 ->
  Relational.updateTodo db r
  = if Relational.int4 (ID t)
    then (Http.Ok (Http.JObject (mkTodo (ID t) (Title u) (Done u))),
          Relational.set_rows db (l1 ++ mkTodo (ID t) (Title u) (Done u) :: l2))
    else (Http.Error "Update failed" Http.StatusInternalServerError, db).
Proof.
  intros Hl Hpk Hid Hb Hrows.
  unfold Relational.primary_key in Hpk. rewrite Hrows in Hpk.
  apply primary_key_others in Hpk as [H1 H2].
  apply (relational_update_existing db r u t l1 l2); try done.
  by apply Forall_app.
Qed.

Lemma relational_update_witness :
  Relational.updateTodo
    (Relational.mkPool [mkTodo 3 "c" false; mkTodo 1 "a" true] 3 [])
    (Http.mkRequest "PUT" "/todos/1" (Some (mkTodo 8 "z" false)))
  = (Http.Ok (Http.JObject (mkTodo 1 "z" false)),
     Relational.mkPool [mkTodo 3 "c" false; mkTodo 1 "z" false] 3 []).
Proof.
  apply (relational_update
           (Relational.mkPool [mkTodo 3 "c" false; mkTodo 1 "a" true] 3 [])
           (Http.mkRequest "PUT" "/todos/1" (Some (mkTodo 8 "z" false)))
           (mkTodo 8 "z" false) (mkTodo 1 "a" true) [mkTodo 3 "c" false] []);
    try reflexivity.
  unfold Relational.primary_key. simpl.
  apply NoDup_cons. split; [|apply NoDup_singleton].
  rewrite list_elem_of_singleton. lia.
Defined.
